(** * tantable: a paginated data table and the screen that feeds it

    A shallow embedding of the two source files of the repository:
    the generic table renderer [DataTable] (DataTable.tsx) and the
    screen [App] (App.tsx) that fetches one page of auction records
    and hands it to the renderer.

    - A rendered React tree is a [VNode]: text or an element with a
      tag, its JSX attributes and its children.
    - The functions a component can invoke (the callbacks of its props,
      [navigate], the setter of its own sorting state) are recorded as
      [Call]s; an event handler is the list of calls it makes, in order.
    - The part of @tanstack/react-table the renderer relies on (rows,
      columns, the row-model pipeline, header groups, [flexRender]) is
      modelled in [TanStack].
    - [App.fetchData] is written in a small state, exception and log
      monad with try/catch/finally. *)

From stdpp Require Import base strings list gmap pretty.
From Stdlib Require Import ZArith.

Set Warnings "-register-all".

(** ** JavaScript values the components inspect *)

Module Js.

(** ToBoolean of a string: the empty string is its only falsy value. *)
Definition truthy_string (s : string) : bool :=
  match s with
  | EmptyString => false
  | String _ _ => true
  end.

(** ToBoolean of an optional string prop: [undefined] is falsy. *)
Definition truthy (o : option string) : bool :=
  match o with
  | Some s => truthy_string s
  | None => false
  end.

(** [a || b] on strings, the left one possibly [undefined]. *)
Definition or_else (o : option string) (d : string) : string :=
  match o with
  | Some s => if truthy_string s then s else d
  | None => d
  end.

(** The [id] field of a row record, [string | number].  Numeric
    identifiers are integers. *)
Inductive RowId :=
| IdString (s : string)
| IdNumber (n : Z).

(** Conversion of an identifier inside a template literal. *)
Definition to_string (i : RowId) : string :=
  match i with
  | IdString s => s
  | IdNumber n => pretty n
  end.

End Js.

(** [T extends { id: string | number }] *)
Class HasId (T : Type) := record_id : T -> Js.RowId.

(** [SortingState] of the table library: (column id, descending?) pairs. *)
Record ColumnSort := { sort_id : string; desc : bool }.

Definition SortingState := list ColumnSort.

(** ** Rendered trees, handlers and the calls they make *)

Module React.

Section Tree.

Context {T : Type}.

(** What a handler of the renderer can invoke: the callbacks of the
    props, the router's [navigate], and [setSorting] of the renderer's
    own state hook. *)
Inductive Call :=
| Navigate (to : string)
| OnPageChange (page : Z)
| OnEdit (record : T)
| OnDelete (record : T)
| OnSearch (value : string)
| SetSorting (sorting : SortingState).

Definition Handler := list Call.

Inductive AttrValue :=
| AStr (s : string)
| ANum (n : Z)
| ABool (b : bool)
| AClick (h : Handler)
| AChange (h : string -> Handler).

Definition Attrs := list (string * AttrValue).

Inductive VNode :=
| Text (s : string)
| Element (tag : string) (attrs : Attrs) (children : list VNode).

Fixpoint get_attr (name : string) (attrs : Attrs) : option AttrValue :=
  match attrs with
  | [] => None
  | (k, v) :: rest => if String.eqb k name then Some v else get_attr name rest
  end.

Definition attrs_of (n : VNode) : Attrs :=
  match n with
  | Text _ => []
  | Element _ attrs _ => attrs
  end.

Definition children_of (n : VNode) : list VNode :=
  match n with
  | Text _ => []
  | Element _ _ children => children
  end.

Definition tag_of (n : VNode) : option string :=
  match n with
  | Text _ => None
  | Element tag _ _ => Some tag
  end.

Definition is_disabled (n : VNode) : bool :=
  match get_attr "disabled" (attrs_of n) with
  | Some (ABool true) => true
  | _ => false
  end.

(** The [onClick] handler written on an element, if any. *)
Definition onClick_of (n : VNode) : option Handler :=
  match get_attr "onClick" (attrs_of n) with
  | Some (AClick h) => Some h
  | _ => None
  end.

Definition onChange_of (n : VNode) : option (string -> Handler) :=
  match get_attr "onChange" (attrs_of n) with
  | Some (AChange h) => Some h
  | _ => None
  end.

(** Modelled from the spec: the components of components/ui (Button,
    Input, Table..., not among the sources) are thin wrappers over the
    native elements.  A click on an element runs the [onClick] written
    on it, unless the element is disabled, in which case nothing runs. *)
Definition click (n : VNode) : Handler :=
  if is_disabled n then []
  else default [] (onClick_of n).

(** Modelled from the spec: a change of an input to the raw text
    [value] runs the [onChange] written on it with an event whose
    [target.value] is that text. *)
Definition change (value : string) (n : VNode) : Handler :=
  if is_disabled n then []
  else match onChange_of n with
       | Some h => h value
       | None => []
       end.

(** All the text of a tree, left to right. *)
Fixpoint textContent (n : VNode) : string :=
  match n with
  | Text s => s
  | Element _ _ children =>
      (fix go (l : list VNode) : string :=
         match l with
         | [] => ""
         | c :: rest => textContent c +:+ go rest
         end) children
  end.

(** A node and everything below it, in document order. *)
Fixpoint subtree (n : VNode) : list VNode :=
  n :: match n with
       | Text _ => []
       | Element _ _ children =>
           (fix go (l : list VNode) : list VNode :=
              match l with
              | [] => []
              | c :: rest => subtree c ++ go rest
              end) children
       end.

(** The node reached from [n] by taking, at each level, the child of
    the given index. *)
Fixpoint at_path (path : list nat) (n : VNode) : option VNode :=
  match path with
  | [] => Some n
  | i :: rest => children_of n !! i ≫= at_path rest
  end.

End Tree.

Arguments Call : clear implicits.
Arguments Handler : clear implicits.
Arguments AttrValue : clear implicits.
Arguments Attrs : clear implicits.
Arguments VNode : clear implicits.

End React.

(** ** The table library *)

Module TanStack.

Import React.

Section Table.

Context {T : Type}.

(** [Row<T>]: its id is its index in the data, as a string. *)
Record Row := { row_id : string; row_index : nat; row_original : T }.

(** A header or cell template: a string, or a function of the context. *)
Inductive Template (Ctx : Type) :=
| TemplateString (s : string)
| TemplateFn (f : Ctx -> VNode T).

Arguments TemplateString {Ctx} s.
Arguments TemplateFn {Ctx} f.

(** The context handed to a cell template holds the row; the one handed
    to a header template the current sorting state. *)
Record CellContext := { row : Row; cell_column_id : string }.

Record HeaderContext := { header_column_id : string; header_sorting : SortingState }.

(** [ColumnDef<T>]: identifier, header, accessor (the displayed value
    of the field it reads) and optional cell renderer. *)
Record ColumnDef := {
  id : string;
  header : Template HeaderContext;
  accessorFn : option (T -> string);
  cell : option (Template CellContext)
}.

(** [flexRender(Comp, props)]: a component is rendered with the props,
    anything else is rendered as it is. *)
Definition flexRender {Ctx : Type} (comp : Template Ctx) (props : Ctx) : VNode T :=
  match comp with
  | TemplateString s => Text s
  | TemplateFn f => f props
  end.

(** The library's default cell shows the accessor's value, and nothing
    (here the empty text) for a column without accessor. *)
Definition defaultCell (c : ColumnDef) : Template CellContext :=
  TemplateFn (fun ctx =>
    match accessorFn c with
    | Some f => Text (f (row_original (row ctx)))
    | None => Text ""
    end).

Definition cellTemplate (c : ColumnDef) : Template CellContext :=
  default (defaultCell c) (cell c).

Record PaginationState := { pageIndex : nat; pageSize : nat }.

(** A row-model stage maps the rows of the stage before it. *)
Definition RowModel := list Row.

(** The options [useReactTable] receives.  A stage of the row-model
    pipeline is present only when its factory is passed; the stages for
    filtering, grouping and expanding, which the component never passes,
    are left out.  The pagination state is never changed by the
    component, so it stays the initial one. *)
Record TableOptions := {
  data : list T;
  columns : list ColumnDef;
  state_sorting : SortingState;
  onSortingChange : SortingState -> Call T;
  getSortedRowModel : option (SortingState -> RowModel -> RowModel);
  getPaginationRowModel : option (PaginationState -> RowModel -> RowModel);
  manualSorting : bool;
  manualPagination : bool;
  pageCount : Z;
  initialState_pagination : PaginationState
}.

(** [getCoreRowModel()]: one row per datum, in the order of the data. *)
Definition getCoreRowModel (d : list T) : RowModel :=
  imap (fun i x => {| row_id := pretty i; row_index := i; row_original := x |}) d.

(** [getPaginationRowModel()]: the slice of the current page. *)
Definition paginate (p : PaginationState) (rows : RowModel) : RowModel :=
  take (pageSize p) (drop (pageIndex p * pageSize p) rows).

(** [table.getSortedRowModel()]: the rows before sorting when sorting
    is manual or no sorted row model was passed. *)
Definition sortedRows (o : TableOptions) : RowModel :=
  let pre := getCoreRowModel (data o) in
  match getSortedRowModel o with
  | Some sort => if manualSorting o then pre else sort (state_sorting o) pre
  | None => pre
  end.

(** [table.getRowModel()], the last stage: pagination, skipped when
    pagination is manual or no pagination row model was passed. *)
Definition getRowModel (o : TableOptions) : RowModel :=
  let pre := sortedRows o in
  match getPaginationRowModel o with
  | Some page => if manualPagination o then pre else page (initialState_pagination o) pre
  | None => pre
  end.

(** [row.getVisibleCells()]: one cell per column (no column is hidden),
    with id [<row id>_<column id>]. *)
Record Cell := { cell_id : string; cell_row : Row; cell_column : ColumnDef }.

Definition getVisibleCells (o : TableOptions) (r : Row) : list Cell :=
  map (fun c => {| cell_id := row_id r +:+ "_" +:+ id c; cell_row := r; cell_column := c |})
      (columns o).

Definition cell_getContext (c : Cell) : CellContext :=
  {| row := cell_row c; cell_column_id := id (cell_column c) |}.

(** [table.getHeaderGroups()]: the columns are flat, so there is one
    group, with one header per column and no placeholder. *)
Record Header := { header_id : string; header_column : ColumnDef; isPlaceholder : bool }.

Record HeaderGroup := { headerGroup_id : string; headers : list Header }.

Definition getHeaderGroups (o : TableOptions) : list HeaderGroup :=
  [ {| headerGroup_id := "0";
       headers := map (fun c => {| header_id := id c; header_column := c;
                                   isPlaceholder := false |}) (columns o) |} ].

Definition header_getContext (o : TableOptions) (h : Header) : HeaderContext :=
  {| header_column_id := id (header_column h); header_sorting := state_sorting o |}.

(** [row.getIsSelected()]: no row-selection state is kept. *)
Definition getIsSelected (r : Row) : bool := false.

End Table.

Arguments Row : clear implicits.
Arguments Template : clear implicits.
Arguments TemplateString {T Ctx} s.
Arguments TemplateFn {T Ctx} f.
Arguments CellContext : clear implicits.
Arguments ColumnDef : clear implicits.
Arguments RowModel : clear implicits.
Arguments TableOptions : clear implicits.
Arguments Cell : clear implicits.
Arguments Header : clear implicits.
Arguments HeaderGroup : clear implicits.

End TanStack.

(** ** The generic table renderer (DataTable.tsx) *)

Module DataTable.

Import React TanStack.

Section Component.

Context {T : Type} `{HasId T}.

(** The props after the defaults of the destructuring have been
    applied.  An optional callback is seen by the component only through
    its truthiness and its invocations: the field says whether it was
    passed, an invocation is a [Call].  [onPageChange] is required. *)
Record DataTableProps := {
  data : list T;
  columns : list (ColumnDef T);
  pageCount : Z;
  currentPage : Z;
  pageSize : nat;
  onEdit : bool;
  onDelete : bool;
  editRoute : option string;
  isLoading : bool;
  searchValue : string;
  onSearch : bool;
  columnStyles : gmap string string
}.

Definition Pencil : VNode T := Element "Pencil" [("className", AStr "h-4 w-4")] [].

Definition Trash2 : VNode T := Element "Trash2" [("className", AStr "h-4 w-4 text-red-500")] [].

(** The [onClick] of the edit button. *)
Definition editClick (p : DataTableProps) (r : Row T) : Handler T :=
  if Js.truthy (editRoute p)
  then [Navigate (default "" (editRoute p) +:+ "/" +:+ Js.to_string (record_id (row_original r)))]
  else [OnEdit (row_original r)].

Definition editButton (p : DataTableProps) (r : Row T) : VNode T :=
  Element "Button"
    [("variant", AStr "ghost"); ("size", AStr "sm"); ("onClick", AClick (editClick p r))]
    [Pencil].

Definition deleteTrigger : VNode T :=
  Element "Button" [("variant", AStr "ghost"); ("size", AStr "sm")] [Trash2].

Definition deleteCancel : VNode T :=
  Element "AlertDialogCancel" [] [Text "Cancel"].

Definition deleteAction (r : Row T) : VNode T :=
  Element "AlertDialogAction"
    [("onClick", AClick [OnDelete (row_original r)]);
     ("className", AStr "bg-red-500 hover:bg-red-600")]
    [Text "Delete"].

Definition deleteDialog (r : Row T) : VNode T :=
  Element "AlertDialog" []
    [Element "AlertDialogTrigger" [("asChild", ABool true)] [deleteTrigger];
     Element "AlertDialogContent" []
       [Element "AlertDialogHeader" []
          [Element "AlertDialogTitle" [] [Text "Confirm Deletion"];
           Element "AlertDialogDescription" []
             [Text "Are you sure you want to delete this item? This action cannot be undone."]];
        Element "AlertDialogFooter" [] [deleteCancel; deleteAction r]]].

(** The cell of the actions column: [{onEdit && ...}] and
    [{onDelete && ...}] render nothing when the callback is absent. *)
Definition actionsCell (p : DataTableProps) (ctx : CellContext T) : VNode T :=
  Element "div" [("className", AStr "flex gap-2")]
    ((if onEdit p then [editButton p (row ctx)] else [])
     ++ (if onDelete p then [deleteDialog (row ctx)] else [])).

Definition actionsColumn (p : DataTableProps) : ColumnDef T :=
  {| id := "actions";
     header := TemplateString "Actions";
     accessorFn := None;
     cell := Some (TemplateFn (actionsCell p)) |}.

Definition tableColumns (p : DataTableProps) : list (ColumnDef T) :=
  if negb (onEdit p) && negb (onDelete p) then columns p
  else columns p ++ [actionsColumn p].

(** The options passed to [useReactTable]; [sorting] is the state of
    [React.useState<SortingState>([])]. *)
Definition table (p : DataTableProps) (sorting : SortingState) : TableOptions T :=
  {| TanStack.data := data p;
     TanStack.columns := tableColumns p;
     state_sorting := sorting;
     onSortingChange := SetSorting;
     getSortedRowModel := None;
     getPaginationRowModel := Some paginate;
     manualSorting := false;
     manualPagination := true;
     TanStack.pageCount := pageCount p;
     initialState_pagination := {| pageIndex := 0; TanStack.pageSize := pageSize p |} |}.

(** [columnStyles[id] || ''] *)
Definition styleOf (p : DataTableProps) (column_id : string) : string :=
  Js.or_else (columnStyles p !! column_id) "".

Definition searchInput (p : DataTableProps) : VNode T :=
  Element "Input"
    [("placeholder", AStr "Search...");
     ("value", AStr (searchValue p));
     ("onChange", AChange (fun value => [OnSearch value]));
     ("className", AStr "max-w-sm")]
    [].

(** [{onSearch && (...)}]: nothing when the callback is absent. *)
Definition renderSearch (p : DataTableProps) : list (VNode T) :=
  if onSearch p then
    [Element "div" [("className", AStr "flex items-center py-4")] [searchInput p]]
  else [].

Definition renderHead (p : DataTableProps) (sorting : SortingState) (h : Header T) : VNode T :=
  Element "TableHead"
    [("key", AStr (header_id h)); ("className", AStr (styleOf p (id (header_column h))))]
    (if isPlaceholder h then []
     else [flexRender (header (header_column h)) (header_getContext (table p sorting) h)]).

Definition renderHeader (p : DataTableProps) (sorting : SortingState) : VNode T :=
  Element "TableHeader" []
    (map (fun g => Element "TableRow" [("key", AStr (headerGroup_id g))]
                     (map (renderHead p sorting) (headers g)))
         (getHeaderGroups (table p sorting))).

Definition placeholderRow (p : DataTableProps) (message : string) : VNode T :=
  Element "TableRow" []
    [Element "TableCell"
       [("colSpan", ANum (Z.of_nat (length (tableColumns p))));
        ("className", AStr "h-24 text-center")]
       [Text message]].

Definition renderCell (p : DataTableProps) (c : Cell T) : VNode T :=
  Element "TableCell"
    [("key", AStr (cell_id c)); ("className", AStr (styleOf p (id (cell_column c))))]
    [flexRender (cellTemplate (cell_column c)) (cell_getContext c)].

Definition renderRow (p : DataTableProps) (sorting : SortingState) (r : Row T) : VNode T :=
  Element "TableRow"
    [("key", AStr (row_id r));
     ("data-state", if getIsSelected r then AStr "selected" else ABool false)]
    (map (renderCell p) (getVisibleCells (table p sorting) r)).

(** The children of [TableBody]. *)
Definition renderBody (p : DataTableProps) (sorting : SortingState) : list (VNode T) :=
  if isLoading p then [placeholderRow p "Loading..."]
  else
    let rows := getRowModel (table p sorting) in
    if (0 <? length rows)%nat then map (renderRow p sorting) rows
    else [placeholderRow p "No results."].

Definition previousButton (p : DataTableProps) : VNode T :=
  Element "Button"
    [("variant", AStr "outline"); ("size", AStr "sm");
     ("onClick", AClick [OnPageChange (currentPage p - 1)]);
     ("disabled", ABool (currentPage p =? 1)%Z)]
    [Text "Previous"].

Definition nextButton (p : DataTableProps) : VNode T :=
  Element "Button"
    [("variant", AStr "outline"); ("size", AStr "sm");
     ("onClick", AClick [OnPageChange (currentPage p + 1)]);
     ("disabled", ABool (currentPage p =? pageCount p)%Z)]
    [Text "Next"].

Definition pageLabel (p : DataTableProps) : VNode T :=
  Element "div" [("className", AStr "text-sm text-gray-500")]
    [Text "Page "; Text (pretty (currentPage p)); Text " of "; Text (pretty (pageCount p))].

Definition renderPager (p : DataTableProps) : VNode T :=
  Element "div" [("className", AStr "flex items-center justify-between space-x-2 py-4")]
    [pageLabel p;
     Element "div" [("className", AStr "space-x-2")] [previousButton p; nextButton p]].

Definition DataTable (p : DataTableProps) (sorting : SortingState) : VNode T :=
  Element "div" [("className", AStr "w-full")]
    (renderSearch p
     ++ [Element "div" [("className", AStr "rounded-md border")]
           [Element "Table" []
              [renderHeader p sorting;
               Element "TableBody" [("className", AStr "min-h-[400px]")] (renderBody p sorting)]];
         renderPager p]).

(** *** The confirmation dialog of a row *)

Inductive DialogAction := ClickTrigger | ClickCancel | ClickAction | Dismiss.

#[export] Instance DialogAction_eq_dec : EqDecision DialogAction.
Proof. solve_decision. Defined.

(** Modelled from the spec: the AlertDialog of components/ui (not among
    the sources) is a modal that starts closed.  Its trigger opens it;
    while it is open its cancel control, its affirmative control and a
    dismissal close it; each click runs what is written on the clicked
    element.  A control that is not shown cannot be used. *)
Definition dialog_step (r : Row T) (open : bool) (a : DialogAction)
  : option (bool * Handler T) :=
  match open, a with
  | false, ClickTrigger => Some (true, click deleteTrigger)
  | true, ClickCancel => Some (false, click deleteCancel)
  | true, ClickAction => Some (false, click (deleteAction r))
  | true, Dismiss => Some (false, [])
  | _, _ => None
  end.

Fixpoint dialog_run (r : Row T) (open : bool) (acts : list DialogAction)
  : option (bool * Handler T) :=
  match acts with
  | [] => Some (open, [])
  | a :: rest =>
      '(open1, calls1) ← dialog_step r open a;
      '(open2, calls2) ← dialog_run r open1 rest;
      Some (open2, calls1 ++ calls2)
  end.

End Component.

Arguments DataTableProps T : clear implicits.

End DataTable.

(** ** The screen (App.tsx) *)

Module App.

Import React.

(** Numeric fields are integers in this model. *)
Record AuctionData := {
  id : Z;
  dateString : string;
  auctioneer : string;
  lots : Z;
  qty : Z;
  qtySold : Z;
  maxPrice : Z;
  avgPrice : Z;
  type : string
}.

#[export] Instance AuctionData_HasId : HasId AuctionData :=
  fun record => Js.IdNumber (id record).

(** A column written with [id], [header] and [accessorKey]. *)
Definition accessorColumn (column_id heading : string) (field : AuctionData -> string)
  : TanStack.ColumnDef AuctionData :=
  {| TanStack.id := column_id;
     TanStack.header := TanStack.TemplateString heading;
     TanStack.accessorFn := Some field;
     TanStack.cell := None |}.

Definition columns : list (TanStack.ColumnDef AuctionData) :=
  [accessorColumn "dateString" "Date" dateString;
   accessorColumn "auctioneer" "Auctioneer" auctioneer;
   accessorColumn "lots" "Lots" (fun r => pretty (lots r));
   accessorColumn "qty" "Quantity" (fun r => pretty (qty r));
   accessorColumn "qtySold" "Quantity Sold" (fun r => pretty (qtySold r));
   accessorColumn "maxPrice" "Max Price" (fun r => pretty (maxPrice r));
   accessorColumn "avgPrice" "Average Price" (fun r => pretty (avgPrice r));
   accessorColumn "type" "Type" type].

Definition columnStyles : gmap string string := {[ "dateString" := "w-28" ]}.

(** The three [useState] cells of the component. *)
Record State := { data : list AuctionData; currentPage : Z; isLoading : bool }.

Definition initialState : State := {| data := []; currentPage := 1; isLoading := false |}.

(** *** The world outside: the network and the console *)

Inductive Error :=
| TypeError (message : string)
| SyntaxError (message : string).

(** A response, seen through what [response.json()] settles to. *)
Record Response := { json_result : Error + list AuctionData }.

(** What [fetch(url)] settles to: a rejection or a response. *)
Definition Network := string -> Error + Response.

(** What [fetchData] does, in order. *)
Inductive Effect :=
| SetIsLoading (flag : bool)
| Fetch (url : string)
| SetData (rows : list AuctionData)
| ConsoleError (label : string) (error : Error).

(** *** A monad for the body of [fetchData]: state, exceptions, log *)

Inductive Completion (A : Type) :=
| Normal (a : A)
| Throw (e : Error).

Arguments Normal {A} a.
Arguments Throw {A} e.

Definition M (A : Type) : Type := Network -> State -> Completion A * State * list Effect.

#[export] Instance M_ret : MRet M :=
  fun A a _ st => (Normal a, st, []).

#[export] Instance M_bind : MBind M :=
  fun A B k m net st =>
    match m net st with
    | (Normal a, st1, log1) =>
        let '(r, st2, log2) := k a net st1 in (r, st2, log1 ++ log2)
    | (Throw e, st1, log1) => (Throw e, st1, log1)
    end.

(** [try { body } catch (error) { handler } finally { final }] *)
Definition try_catch_finally (body : M unit) (handler : Error -> M unit) (final : M unit)
  : M unit :=
  fun net st =>
    let '(r1, st1, log1) := body net st in
    let '(r2, st2, log2) :=
      match r1 with
      | Normal _ => (r1, st1, [])
      | Throw e => handler e net st1
      end in
    let '(r3, st3, log3) := final net st2 in
    (match r3 with Normal _ => r2 | Throw e => Throw e end, st3, log1 ++ log2 ++ log3).

Definition setIsLoading (flag : bool) : M unit :=
  fun _ st =>
    (Normal (), {| data := data st; currentPage := currentPage st; isLoading := flag |},
     [SetIsLoading flag]).

Definition setData (rows : list AuctionData) : M unit :=
  fun _ st =>
    (Normal (), {| data := rows; currentPage := currentPage st; isLoading := isLoading st |},
     [SetData rows]).

Definition fetch (url : string) : M Response :=
  fun net st =>
    match net url with
    | inr response => (Normal response, st, [Fetch url])
    | inl e => (Throw e, st, [Fetch url])
    end.

Definition json (response : Response) : M (list AuctionData) :=
  fun _ st =>
    match json_result response with
    | inr rows => (Normal rows, st, [])
    | inl e => (Throw e, st, [])
    end.

Definition console_error (label : string) (error : Error) : M unit :=
  fun _ st => (Normal (), st, [ConsoleError label error]).

Definition requestUrl (page : Z) : string :=
  "https://spicesinfo.in/auction-all/" +:+ pretty (page - 1)%Z +:+ "/10".

(** [fetchData] as created by the render in which the current page is
    [page]. *)
Definition fetchData (page : Z) : M unit :=
  setIsLoading true ;;
  try_catch_finally
    (response ← fetch (requestUrl page);
     result ← json response;
     setData result)
    (fun error => console_error "Error fetching data:" error)
    (setIsLoading false).

(** *** Life cycle *)

(** The props handed to the renderer. *)
Definition props (st : State) : DataTable.DataTableProps AuctionData :=
  {| DataTable.data := data st;
     DataTable.columns := columns;
     DataTable.pageCount := 10;
     DataTable.currentPage := currentPage st;
     DataTable.pageSize := 10;
     DataTable.onEdit := false;
     DataTable.onDelete := false;
     DataTable.editRoute := None;
     DataTable.isLoading := isLoading st;
     DataTable.searchValue := "";
     DataTable.onSearch := false;
     DataTable.columnStyles := columnStyles |}.

Definition App (st : State) (sorting : SortingState) : VNode AuctionData :=
  Element "div" [("className", AStr "container mx-auto py-10")]
    [DataTable.DataTable (props st) sorting].

(** What can happen to the component: it is mounted, or its
    [setCurrentPage] is called (it is the [onPageChange] of the
    renderer). *)
Inductive Event :=
| Mount
| SetCurrentPage (page : Z).

(** [useEffect(..., [currentPage])]: the effect runs after the first
    render and after a render in which [currentPage] differs from the
    one before; setting the state to its current value changes nothing. *)
Definition step (net : Network) (ev : Event) (st : State) : State * list Effect :=
  match ev with
  | Mount =>
      let '(_, st', log) := fetchData (currentPage st) net st in (st', log)
  | SetCurrentPage page =>
      if (page =? currentPage st)%Z then (st, [])
      else
        let st0 := {| data := data st; currentPage := page; isLoading := isLoading st |} in
        let '(_, st', log) := fetchData page net st0 in (st', log)
  end.

(** The screen together with the sorting state its renderer keeps. *)
Definition System : Type := State * SortingState.

(** A call made by a handler of the rendered tree, as the screen wires
    it: [onPageChange] is [setCurrentPage], [setSorting] belongs to the
    renderer, and the screen passes no other callback. *)
Definition dispatch (net : Network) (c : Call AuctionData) (sys : System)
  : System * list Effect :=
  match c with
  | OnPageChange page =>
      let '(st', log) := step net (SetCurrentPage page) (fst sys) in ((st', snd sys), log)
  | SetSorting sorting => ((fst sys, sorting), [])
  | _ => (sys, [])
  end.

Fixpoint handle (net : Network) (h : Handler AuctionData) (sys : System)
  : System * list Effect :=
  match h with
  | [] => (sys, [])
  | c :: rest =>
      let '(sys1, log1) := dispatch net c sys in
      let '(sys2, log2) := handle net rest sys1 in
      (sys2, log1 ++ log2)
  end.

(** A click on the node calls nothing, or only asks for another page. *)
Definition page_change_only (n : VNode AuctionData) : Prop :=
  click n = [] \/ exists page, click n = [OnPageChange page].

(** The requests among the effects. *)
Definition requests (log : list Effect) : list string :=
  omap (fun e => match e with Fetch url => Some url | _ => None end) log.

End App.

(** ** Concrete inputs *)

Module Samples.

Import React TanStack.

Definition auction (n : Z) : App.AuctionData :=
  {| App.id := n; App.dateString := "2024-01-15"; App.auctioneer := "Spice Traders";
     App.lots := n; App.qty := 100; App.qtySold := 90; App.maxPrice := 2500;
     App.avgPrice := 2100; App.type := "Small" |}.

Definition row_of (i : nat) (n : Z) : Row App.AuctionData :=
  {| row_id := pretty i; row_index := i; row_original := auction n |}.

(** A page whose records are not in the order of any of their fields. *)
Definition page_3_1_2 : App.State :=
  {| App.data := [auction 3; auction 1; auction 2]; App.currentPage := 3;
     App.isLoading := false |}.

Definition by_lots : SortingState := [{| sort_id := "lots"; desc := false |}].

Definition by_lots_desc : SortingState := [{| sort_id := "lots"; desc := true |}].

(** The header cell of the column "lots" in the rendered screen. *)
Definition lots_head_path : list nat := [0; 0; 0; 0; 0; 2]%nat.

Definition with_actions (edit delete : bool) (route : option string)
  : DataTable.DataTableProps App.AuctionData :=
  {| DataTable.data := [auction 42];
     DataTable.columns := App.columns;
     DataTable.pageCount := 10;
     DataTable.currentPage := 3;
     DataTable.pageSize := 10;
     DataTable.onEdit := edit;
     DataTable.onDelete := delete;
     DataTable.editRoute := route;
     DataTable.isLoading := false;
     DataTable.searchValue := "";
     DataTable.onSearch := false;
     DataTable.columnStyles := ∅ |}.

Definition with_search (callback : bool) (text : string)
  : DataTable.DataTableProps App.AuctionData :=
  {| DataTable.data := [auction 42];
     DataTable.columns := App.columns;
     DataTable.pageCount := 10;
     DataTable.currentPage := 3;
     DataTable.pageSize := 10;
     DataTable.onEdit := false;
     DataTable.onDelete := false;
     DataTable.editRoute := None;
     DataTable.isLoading := false;
     DataTable.searchValue := text;
     DataTable.onSearch := callback;
     DataTable.columnStyles := ∅ |}.

Definition loading_page : App.State :=
  {| App.data := [auction 1; auction 2]; App.currentPage := 3; App.isLoading := true |}.

Definition empty_page : App.State :=
  {| App.data := []; App.currentPage := 3; App.isLoading := false |}.

Definition two_rows : list App.AuctionData := [auction 1; auction 2].

Definition serves (rows : list App.AuctionData) : App.Network :=
  fun _ => inr {| App.json_result := inr rows |}.

Definition offline : App.Network :=
  fun _ => inl (App.TypeError "Failed to fetch").

Definition garbled : App.Network :=
  fun _ => inr {| App.json_result := inl (App.SyntaxError "Unexpected token < in JSON") |}.

End Samples.

(** ** The user at the pager of the screen *)

Module Pager.

Import React.

Inductive Control := Previous | Next.

Definition control (c : Control) (st : App.State) : VNode App.AuctionData :=
  match c with
  | Previous => DataTable.previousButton (App.props st)
  | Next => DataTable.nextButton (App.props st)
  end.

(** A click on a control of the pager as the screen renders it in its
    current state, with the calls it makes handled by the screen. *)
Definition press (net : App.Network) (c : Control) (sys : App.System)
  : App.System * list App.Effect :=
  App.handle net (click (control c (fst sys))) sys.

Fixpoint presses (net : App.Network) (cs : list Control) (sys : App.System)
  : App.System * list App.Effect :=
  match cs with
  | [] => (sys, [])
  | c :: rest =>
      let '(sys1, log1) := press net c sys in
      let '(sys2, log2) := presses net rest sys1 in
      (sys2, log1 ++ log2)
  end.

End Pager.

(** ** The fetch in time *)

(** [fetchData] is an async function: it runs up to its first [await]
    when the effect calls it, and the rest runs when the response has
    arrived.  Nothing of the function is observable between the arrival
    of the response and the end of [response.json()], so the two awaits
    are taken as one.  The effect returns no cleanup and nothing aborts
    a request. *)

Module Async.

Import (hints) App.

(** The call [fetch(url)]: the request leaves. *)
Definition request (url : string) : App.M unit :=
  fun _ st => (App.Normal (), st, [App.Fetch url]).

(** What [await] gives once the request to [url] has settled. *)
Definition settled (url : string) : App.M App.Response :=
  fun net st =>
    match net url with
    | inr response => (App.Normal response, st, [])
    | inl e => (App.Throw e, st, [])
    end.

(** [fetchData] up to its first [await]. *)
Definition fetchData_start (page : Z) : App.M unit :=
  App.setIsLoading true ;; request (App.requestUrl page).

(** [fetchData] from its first [await] on. *)
Definition fetchData_resume (page : Z) : App.M unit :=
  App.try_catch_finally
    (response ← settled (App.requestUrl page);
     result ← App.json response;
     App.setData result)
    (fun error => App.console_error "Error fetching data:" error)
    (App.setIsLoading false).

(** The screen and the pages of the requests whose response has not
    arrived yet, oldest first. *)
Record System := { state : App.State; inflight : list Z }.

(** Something happens to the screen, or the response of the request at
    a position of [inflight] arrives. *)
Inductive Event :=
| Do (ev : App.Event)
| Settle (i : nat).

(** The page for which the effect runs after an event, if it runs. *)
Definition effect_page (ev : App.Event) (st : App.State) : option Z :=
  match ev with
  | App.Mount => Some (App.currentPage st)
  | App.SetCurrentPage page =>
      if (page =? App.currentPage st)%Z then None else Some page
  end.

Definition step (net : App.Network) (ev : Event) (sys : System)
  : System * list App.Effect :=
  match ev with
  | Do ev =>
      match effect_page ev (state sys) with
      | Some page =>
          let st0 := {| App.data := App.data (state sys); App.currentPage := page;
                        App.isLoading := App.isLoading (state sys) |} in
          let '(_, st', log) := fetchData_start page net st0 in
          ({| state := st'; inflight := inflight sys ++ [page] |}, log)
      | None => (sys, [])
      end
  | Settle i =>
      match inflight sys !! i with
      | Some page =>
          let '(_, st', log) := fetchData_resume page net (state sys) in
          ({| state := st'; inflight := delete i (inflight sys) |}, log)
      | None => (sys, [])
      end
  end.

Fixpoint steps (net : App.Network) (evs : list Event) (sys : System)
  : System * list App.Effect :=
  match evs with
  | [] => (sys, [])
  | ev :: rest =>
      let '(sys1, log1) := step net ev sys in
      let '(sys2, log2) := steps net rest sys1 in
      (sys2, log1 ++ log2)
  end.

Definition is_settle (ev : Event) : bool :=
  match ev with
  | Settle _ => true
  | Do _ => false
  end.

End Async.

(** ** More concrete inputs *)

Module MoreSamples.

Definition page_2_rows : list App.AuctionData := [Samples.auction 21; Samples.auction 22].

Definition page_3_rows : list App.AuctionData := [Samples.auction 31].

(** A server whose answer depends on the page asked for. *)
Definition by_page : App.Network :=
  fun url =>
    if String.eqb url (App.requestUrl 2)
    then inr {| App.json_result := inr page_2_rows |}
    else inr {| App.json_result := inr page_3_rows |}.

Definition idle : Async.System :=
  {| Async.state := App.initialState; Async.inflight := [] |}.

Definition two_pending : Async.System :=
  {| Async.state := Samples.loading_page; Async.inflight := [2%Z; 3%Z] |}.

Definition header_texts : list string :=
  ["Date"; "Auctioneer"; "Lots"; "Quantity"; "Quantity Sold"; "Max Price";
   "Average Price"; "Type"].

End MoreSamples.

(** * Properties of the renderer *)

Import React TanStack DataTable.

Section Renderer.

Context {T : Type} `{HasId T}.

Implicit Types (p : DataTableProps T) (sorting : SortingState) (r : Row T).

(** ** Columns *)

(** C2: the rendered columns are the supplied columns with
    the actions column appended at the end exactly when an edit callback
    or a delete callback is supplied; otherwise, whatever the edit
    route, they are the supplied columns unchanged. *)
Theorem C2_actions_column_iff_callback p :
  tableColumns p
  = (if onEdit p || onDelete p then columns p ++ [actionsColumn p] else columns p)
  /\ map id (tableColumns p)
     = map id (columns p) ++ (if onEdit p || onDelete p then ["actions"] else []).
Proof.
  unfold tableColumns.
  destruct (onEdit p), (onDelete p); simpl;
    rewrite ?map_app, ?app_nil_r; auto.
Qed.

(** ** The row model *)

(** A sorted row model, had one been passed, would be applied to the
    rows with the sorting state. *)
Lemma sortedRows_with_model (o : TableOptions T)
    (sort : SortingState -> RowModel T -> RowModel T) :
  getSortedRowModel o = Some sort -> manualSorting o = false ->
  sortedRows o = sort (state_sorting o) (getCoreRowModel (TanStack.data o)).
Proof. intros Hs Hm. unfold sortedRows. now rewrite Hs, Hm. Qed.

(** The renderer passes none: its rows are the core rows. *)
Lemma getRowModel_core p sorting :
  getRowModel (table p sorting) = getCoreRowModel (data p).
Proof. reflexivity. Qed.

Lemma imap_original (g : nat -> T -> Row T) (d : list T) :
  (forall i x, row_original (g i x) = x) -> map row_original (imap g d) = d.
Proof.
  revert g. induction d as [|x d IH]; intros g Hg; simpl; [done|].
  rewrite Hg. f_equal. apply IH. intros i y. apply Hg.
Qed.

Lemma getCoreRowModel_original (d : list T) :
  map row_original (getCoreRowModel d) = d.
Proof. unfold getCoreRowModel. now apply imap_original. Qed.

Lemma getCoreRowModel_length (d : list T) :
  length (getCoreRowModel d) = length d.
Proof. unfold getCoreRowModel. apply length_imap. Qed.

Lemma renderBody_loaded p sorting :
  isLoading p = false -> data p <> [] ->
  renderBody p sorting = map (renderRow p sorting) (getCoreRowModel (data p)).
Proof.
  intros Hl Hd. unfold renderBody. rewrite Hl, getRowModel_core.
  rewrite getCoreRowModel_length.
  destruct (data p) as [|x d]; [done|]. reflexivity.
Qed.

Lemma renderBody_sorting p sorting sorting' :
  renderBody p sorting = renderBody p sorting'.
Proof. reflexivity. Qed.

(** ** The body *)

Lemma renderRow_shape p sorting r :
  tag_of (renderRow p sorting r) = Some "TableRow"
  /\ length (children_of (renderRow p sorting r)) = length (tableColumns p)
  /\ Forall (fun td => tag_of td = Some "TableCell") (children_of (renderRow p sorting r))
  /\ forall message, renderRow p sorting r <> placeholderRow p message.
Proof.
  repeat split.
  - simpl. unfold getVisibleCells. now rewrite !length_map.
  - simpl. apply Forall_forall. intros td Htd.
    apply list_elem_of_fmap in Htd as (c & -> & _). reflexivity.
  - intros message Heq. discriminate Heq.
Qed.

(** C3: the body is exactly one of three things, in this order of
    priority: while loading, a single "Loading..." row spanning all the
    columns, whatever the rows; otherwise, for no row, a single
    "No results." row; otherwise one row per record, each with one cell
    per column. *)
Theorem C3_body_states p sorting :
  (isLoading p = true ->
     renderBody p sorting = [placeholderRow p "Loading..."])
  /\ (isLoading p = false -> length (data p) = 0%nat ->
     renderBody p sorting = [placeholderRow p "No results."])
  /\ (isLoading p = false -> length (data p) <> 0%nat ->
     length (renderBody p sorting) = length (data p)
     /\ Forall (fun tr =>
                 tag_of tr = Some "TableRow"
                 /\ length (children_of tr) = length (tableColumns p)
                 /\ Forall (fun td => tag_of td = Some "TableCell") (children_of tr)
                 /\ forall message, tr <> placeholderRow p message)
              (renderBody p sorting))
  /\ (forall message,
       exists td,
         children_of (placeholderRow p message) = [td]
         /\ tag_of td = Some "TableCell"
         /\ get_attr "colSpan" (attrs_of td)
            = Some (ANum (Z.of_nat (length (tableColumns p))))
         /\ children_of td = [Text message]).
Proof.
  split; [|split; [|split]].
  - intros Hl. unfold renderBody. now rewrite Hl.
  - intros Hl Hn. unfold renderBody. rewrite Hl, getRowModel_core.
    now rewrite getCoreRowModel_length, Hn.
  - intros Hl Hn.
    assert (Hd : data p <> []) by (intros E; now rewrite E in Hn).
    rewrite (renderBody_loaded _ _ Hl Hd). split.
    + now rewrite length_map, getCoreRowModel_length.
    + apply Forall_forall. intros tr Htr.
      apply list_elem_of_fmap in Htr as (r & -> & _). apply renderRow_shape.
  - intros message. eexists. repeat split.
Qed.

(** C10: when the page is loaded and not empty, the body rows are the
    supplied rows in the order of the data array, one rendered row per
    record at the same position, whatever the sorting state is. *)
Theorem C10_rows_in_data_order p sorting :
  isLoading p = false -> data p <> [] ->
  map row_original (getRowModel (table p sorting)) = data p
  /\ length (renderBody p sorting) = length (data p)
  /\ (forall (i : nat) (x : T),
       data p !! i = Some x ->
       renderBody p sorting !! i
       = Some (renderRow p sorting
                 {| row_id := pretty i; row_index := i; row_original := x |}))
  /\ forall sorting', renderBody p sorting' = renderBody p sorting.
Proof.
  intros Hl Hd. split; [|split; [|split]].
  - rewrite getRowModel_core. apply getCoreRowModel_original.
  - now rewrite (renderBody_loaded _ _ Hl Hd), length_map, getCoreRowModel_length.
  - intros i x Hx. rewrite (renderBody_loaded _ _ Hl Hd).
    rewrite list_lookup_fmap. unfold getCoreRowModel.
    rewrite list_lookup_imap, Hx. reflexivity.
  - intros sorting'. apply renderBody_sorting.
Qed.

(** ** The pager *)

Lemma string_app_empty_r (s : string) : s +:+ "" = s.
Proof.
  induction s as [|a s IH]; [reflexivity|].
  change (String a (s +:+ "") = String a s). now rewrite IH.
Qed.

Lemma pageLabel_text p :
  textContent (pageLabel p)
  = "Page " +:+ pretty (currentPage p) +:+ " of " +:+ pretty (pageCount p).
Proof.
  simpl. now rewrite string_app_empty_r.
Qed.

(** C5: the pager shows "Page currentPage of pageCount"; Previous is
    disabled exactly on page 1 and Next exactly on the last page; the
    handlers call the page-change callback with currentPage - 1 and
    currentPage + 1, unclamped, and a click runs them unless the
    control is disabled. *)
Theorem C5_pager p sorting :
  at_path [length (renderSearch p) + 1; 0]%nat (DataTable p sorting) = Some (pageLabel p)
  /\ at_path [length (renderSearch p) + 1; 1; 0]%nat (DataTable p sorting)
     = Some (previousButton p)
  /\ at_path [length (renderSearch p) + 1; 1; 1]%nat (DataTable p sorting)
     = Some (nextButton p)
  /\ textContent (pageLabel p)
     = "Page " +:+ pretty (currentPage p) +:+ " of " +:+ pretty (pageCount p)
  /\ (is_disabled (previousButton p) = true <-> currentPage p = 1%Z)
  /\ (is_disabled (nextButton p) = true <-> currentPage p = pageCount p)
  /\ onClick_of (previousButton p) = Some [OnPageChange (currentPage p - 1)]
  /\ onClick_of (nextButton p) = Some [OnPageChange (currentPage p + 1)]
  /\ click (previousButton p)
     = (if (currentPage p =? 1)%Z then [] else [OnPageChange (currentPage p - 1)])
  /\ click (nextButton p)
     = (if (currentPage p =? pageCount p)%Z then []
        else [OnPageChange (currentPage p + 1)]).
Proof.
  assert (Hpath : forall rest,
             at_path ((length (renderSearch p) + 1)%nat :: rest) (DataTable p sorting)
             = at_path rest (renderPager p)).
  { intros rest. unfold DataTable, renderSearch. destruct (onSearch p); reflexivity. }
  rewrite !Hpath.
  repeat split; try reflexivity.
  - apply pageLabel_text.
  - unfold is_disabled. simpl. destruct (Z.eqb_spec (currentPage p) 1); congruence.
  - unfold is_disabled. simpl. intros ->. now rewrite Z.eqb_refl.
  - unfold is_disabled. simpl.
    destruct (Z.eqb_spec (currentPage p) (pageCount p)); congruence.
  - unfold is_disabled. simpl. intros ->. now rewrite Z.eqb_refl.
  - unfold click, is_disabled. simpl. now destruct (currentPage p =? 1)%Z.
  - unfold click, is_disabled. simpl. now destruct (currentPage p =? pageCount p)%Z.
Qed.

(** ** The search box *)

(** C9: with a search callback, the first child of the component, above
    the table, holds a text input that shows the supplied search value,
    and a change of the input calls the callback with the raw text;
    without one, nothing is rendered above the table. *)
Theorem C9_search_input p sorting :
  (onSearch p = true ->
     at_path [0; 0]%nat (DataTable p sorting) = Some (searchInput p)
     /\ length (children_of (DataTable p sorting)) = 3%nat)
  /\ (onSearch p = false ->
     renderSearch p = []
     /\ length (children_of (DataTable p sorting)) = 2%nat
     /\ at_path [0; 0; 0]%nat (DataTable p sorting) = Some (renderHeader p sorting))
  /\ tag_of (searchInput p) = Some "Input"
  /\ get_attr "value" (attrs_of (searchInput p)) = Some (AStr (searchValue p))
  /\ forall value, change value (searchInput p) = [OnSearch value].
Proof.
  split; [|split].
  - intros Hs. unfold DataTable, renderSearch. now rewrite Hs.
  - intros Hs. unfold DataTable, renderSearch. now rewrite Hs.
  - repeat split.
Qed.

(** ** The edit control *)

Lemma editClick_route p r (route : string) :
  editRoute p = Some route -> route <> "" ->
  editClick p r
  = [Navigate (route +:+ "/" +:+ Js.to_string (record_id (row_original r)))].
Proof.
  intros Hr Hne. unfold editClick. rewrite Hr. simpl.
  destruct route; [done|reflexivity].
Qed.

Lemma editClick_callback p r :
  editRoute p = None \/ editRoute p = Some "" ->
  editClick p r = [OnEdit (row_original r)].
Proof. intros [Hr|Hr]; unfold editClick; now rewrite Hr. Qed.

Lemma click_editButton p r : click (editButton p r) = editClick p r.
Proof. reflexivity. Qed.

(** C6: the edit control is the first control of the
    actions cell when an edit callback is supplied.  If a non-empty edit
    route is supplied, a click on it navigates to <editRoute>/<row id>
    and makes no other call, so the edit callback is not invoked; if no
    edit route is supplied, or an empty one, it calls the edit callback
    with the row record and does not navigate. *)
Theorem C6_edit_route_or_callback p (ctx : CellContext T) :
  (onEdit p = true -> at_path [0%nat] (actionsCell p ctx) = Some (editButton p (row ctx)))
  /\ (forall route : string,
       editRoute p = Some route -> route <> "" ->
       click (editButton p (row ctx))
       = [Navigate (route +:+ "/"
                    +:+ Js.to_string (record_id (row_original (row ctx))))]
       /\ forall record, OnEdit record ∉ click (editButton p (row ctx)))
  /\ (editRoute p = None \/ editRoute p = Some "" ->
       click (editButton p (row ctx)) = [OnEdit (row_original (row ctx))]
       /\ forall to, Navigate to ∉ click (editButton p (row ctx))).
Proof.
  split; [|split].
  - intros He. unfold actionsCell. now rewrite He.
  - intros route Hr Hne. rewrite click_editButton, (editClick_route _ _ _ Hr Hne).
    split; [reflexivity|]. intros record Hin.
    apply list_elem_of_singleton in Hin. discriminate Hin.
  - intros Hr. rewrite click_editButton, (editClick_callback _ _ Hr).
    split; [reflexivity|]. intros to Hin.
    apply list_elem_of_singleton in Hin. discriminate Hin.
Qed.

(** ** The delete control *)

Lemma dialog_step_calls r (open : bool) (a : DialogAction) open' calls :
  dialog_step r open a = Some (open', calls) ->
  calls = (if decide (a = ClickAction) then [OnDelete (row_original r)] else []).
Proof.
  destruct open, a; simpl; intros Hs; inversion Hs; reflexivity.
Qed.

Lemma dialog_run_calls r (acts : list DialogAction) :
  forall (open open' : bool) calls,
    dialog_run r open acts = Some (open', calls) ->
    calls = map (fun _ => OnDelete (row_original r))
                (filter (fun a => a = ClickAction) acts).
Proof.
  induction acts as [|a acts IH]; intros open open' calls Hrun; simpl in Hrun.
  - now inversion Hrun.
  - destruct (dialog_step r open a) as [[open1 calls1]|] eqn:Hstep; [|done].
    simpl in Hrun.
    destruct (dialog_run r open1 acts) as [[open2 calls2]|] eqn:Hrest; [|done].
    simpl in Hrun. inversion Hrun; subst.
    rewrite (dialog_step_calls _ _ _ _ _ Hstep), (IH _ _ _ Hrest).
    rewrite filter_cons. destruct (decide (a = ClickAction)); reflexivity.
Qed.

(** Opening the dialog and confirming calls the delete callback once. *)
Lemma confirm_calls_onDelete r :
  dialog_run r false [ClickTrigger; ClickAction]
  = Some (false, [OnDelete (row_original r)]).
Proof. reflexivity. Qed.

Lemma actionsCell_delete_handlers p (ctx : CellContext T) (n : VNode T) (record : T) :
  n ∈ subtree (actionsCell p ctx) ->
  OnDelete record ∈ default [] (onClick_of n) ->
  onDelete p = true /\ n = deleteAction (row ctx) /\ record = row_original (row ctx).
Proof.
  unfold actionsCell, editButton.
  assert (He : forall x, OnDelete record ∈ editClick p x -> False).
  { intros x. unfold editClick. destruct (Js.truthy (editRoute p));
      intros Hin; apply list_elem_of_singleton in Hin; discriminate Hin. }
  destruct (onEdit p), (onDelete p); simpl;
    rewrite ?elem_of_cons, ?elem_of_nil; intros Hn Hc;
    repeat (destruct Hn as [->|Hn]; simpl in Hc;
            [first [ now apply elem_of_nil in Hc
                   | now apply He in Hc
                   | apply list_elem_of_singleton in Hc; inversion Hc; now subst ]|]);
    done.
Qed.

(** C4: in the actions cell of a row the only control whose handler
    calls the delete callback is the affirmative control of the
    confirmation dialog, and it passes the row record.  Over any
    interaction with the dialog, starting closed, the delete callback
    is called if and only if the affirmative control is clicked, and
    only with that record: opening the dialog, cancelling and
    dismissing call nothing. *)
Theorem C4_delete_needs_confirmation p (ctx : CellContext T)
    (acts : list DialogAction) (open' : bool) (calls : Handler T) :
  dialog_run (row ctx) false acts = Some (open', calls) ->
  (OnDelete (row_original (row ctx)) ∈ calls <-> ClickAction ∈ acts)
  /\ (forall c, c ∈ calls -> c = OnDelete (row_original (row ctx)))
  /\ (ClickAction ∉ acts -> calls = [])
  /\ (forall n record,
       n ∈ subtree (actionsCell p ctx) ->
       OnDelete record ∈ default [] (onClick_of n) ->
       onDelete p = true /\ n = deleteAction (row ctx)
       /\ record = row_original (row ctx)).
Proof.
  intros Hrun. apply dialog_run_calls in Hrun. subst calls.
  split; [|split; [|split]].
  - rewrite list_elem_of_fmap. split.
    + intros (a & _ & Ha). apply list_elem_of_filter in Ha as [-> Ha]. exact Ha.
    + intros Ha. exists ClickAction. split; [reflexivity|].
      apply list_elem_of_filter. now split.
  - intros c Hc. apply list_elem_of_fmap in Hc as (a & -> & _). reflexivity.
  - intros Hno. induction acts as [|a acts IH]; [reflexivity|].
    rewrite filter_cons. destruct (decide (a = ClickAction)) as [->|Hne].
    + exfalso. apply Hno. left.
    + apply IH. intros Hin. apply Hno. now right.
  - intros n record. apply actionsCell_delete_handlers.
Qed.

(** ** The header *)

Lemma subtree_Element (tag : string) (attrs : Attrs T) (children : list (VNode T)) :
  subtree (Element tag attrs children)
  = Element tag attrs children :: concat (map subtree children).
Proof.
  simpl. f_equal. induction children as [|c cs IH]; simpl; [reflexivity|].
  now rewrite IH.
Qed.

Lemma Forall_subtree_Element (P : VNode T -> Prop) (tag : string) (attrs : Attrs T)
    (children : list (VNode T)) :
  P (Element tag attrs children) ->
  Forall (fun c => Forall P (subtree c)) children ->
  Forall P (subtree (Element tag attrs children)).
Proof.
  intros Hroot Hchildren. rewrite subtree_Element.
  apply Forall_cons_2; [exact Hroot|]. clear Hroot.
  induction Hchildren as [|c cs Hc _ IH]; [constructor|].
  change (Forall P (subtree c ++ concat (map subtree cs))).
  apply Forall_app. now split.
Qed.

Lemma renderHead_no_handler p sorting (h : Header T) :
  onClick_of (renderHead p sorting h) = None /\ click (renderHead p sorting h) = [].
Proof. split; reflexivity. Qed.

Lemma tableColumns_text_headers p :
  Forall (fun c => exists s, header c = TemplateString s) (columns p) ->
  Forall (fun c => exists s, header c = TemplateString s) (tableColumns p).
Proof.
  intros Hcols. unfold tableColumns.
  destruct (negb (onEdit p) && negb (onDelete p)); [exact Hcols|].
  apply Forall_app. split; [exact Hcols|].
  constructor; [|constructor]. now exists "Actions".
Qed.

Lemma renderHeader_sorting p sorting sorting' :
  Forall (fun c => exists s, header c = TemplateString s) (columns p) ->
  renderHeader p sorting = renderHeader p sorting'.
Proof.
  intros Hcols. apply tableColumns_text_headers in Hcols.
  unfold renderHeader. simpl. do 3 f_equal.
  induction Hcols as [|c cs [s Hs] _ IH]; simpl; [reflexivity|].
  f_equal; [|exact IH].
  unfold renderHead. simpl. now rewrite Hs.
Qed.

(** With plain-text headers nothing that is rendered depends on the
    sorting state. *)
Lemma DataTable_sorting p sorting sorting' :
  Forall (fun c => exists s, header c = TemplateString s) (columns p) ->
  DataTable p sorting = DataTable p sorting'.
Proof.
  intros Hcols. unfold DataTable.
  now rewrite (renderHeader_sorting p sorting sorting' Hcols).
Qed.

End Renderer.

(** * Properties of the screen *)

Import (hints) App.

Section Screen.

Implicit Types (net : App.Network) (st : App.State) (page : Z).

(** ** One run of [fetchData] *)

(** What the request of a page settles to, after [response.json()]. *)
Lemma fetchData_failure net st page (e : App.Error) :
  net (App.requestUrl page) = inl e
  \/ (exists response, net (App.requestUrl page) = inr response
                       /\ App.json_result response = inl e) ->
  App.fetchData page net st
  = (App.Normal (),
     {| App.data := App.data st; App.currentPage := App.currentPage st;
        App.isLoading := false |},
     [App.SetIsLoading true; App.Fetch (App.requestUrl page);
      App.ConsoleError "Error fetching data:" e; App.SetIsLoading false]).
Proof.
  intros [Hnet|(response & Hnet & Hjson)];
    unfold App.fetchData, App.try_catch_finally, App.fetch, App.json,
      mbind, App.M_bind; simpl; rewrite Hnet; simpl; [reflexivity|].
  now rewrite Hjson.
Qed.

Lemma fetchData_success net st page (response : App.Response)
    (rows : list App.AuctionData) :
  net (App.requestUrl page) = inr response ->
  App.json_result response = inr rows ->
  App.fetchData page net st
  = (App.Normal (),
     {| App.data := rows; App.currentPage := App.currentPage st;
        App.isLoading := false |},
     [App.SetIsLoading true; App.Fetch (App.requestUrl page);
      App.SetData rows; App.SetIsLoading false]).
Proof.
  intros Hnet Hjson.
  unfold App.fetchData, App.try_catch_finally, App.fetch, App.json,
    mbind, App.M_bind; simpl.
  rewrite Hnet; simpl. now rewrite Hjson.
Qed.

(** Every run is one of the two. *)
Lemma fetchData_cases net st page :
  (exists e, net (App.requestUrl page) = inl e
             \/ (exists response, net (App.requestUrl page) = inr response
                                  /\ App.json_result response = inl e))
  \/ (exists response rows, net (App.requestUrl page) = inr response
                            /\ App.json_result response = inr rows).
Proof.
  destruct (net (App.requestUrl page)) as [e|response] eqn:Hnet.
  - left. exists e. now left.
  - destruct (App.json_result response) as [e|rows] eqn:Hjson.
    + left. exists e. right. now exists response.
    + right. now exists response, rows.
Qed.

Lemma fetchData_requests net st page :
  App.requests (App.fetchData page net st).2 = [App.requestUrl page]
  /\ App.currentPage (App.fetchData page net st).1.2 = App.currentPage st.
Proof.
  destruct (fetchData_cases net st page) as [(e & He)|(response & rows & Hn & Hj)].
  - now rewrite (fetchData_failure _ _ _ _ He).
  - now rewrite (fetchData_success _ _ _ _ _ Hn Hj).
Qed.

Lemma step_run net st (ev : App.Event) page :
  (ev = App.Mount /\ page = App.currentPage st)
  \/ (ev = App.SetCurrentPage page /\ page <> App.currentPage st) ->
  App.step net ev st
  = ((App.fetchData page net
        {| App.data := App.data st; App.currentPage := page;
           App.isLoading := App.isLoading st |}).1.2,
     (App.fetchData page net
        {| App.data := App.data st; App.currentPage := page;
           App.isLoading := App.isLoading st |}).2).
Proof.
  intros [[-> ->]|[-> Hne]]; simpl.
  - destruct st as [d c l]. simpl.
    now destruct (App.fetchData c net _) as [[r st'] log].
  - destruct (Z.eqb_spec page (App.currentPage st)) as [Heq|_]; [done|].
    now destruct (App.fetchData page net _) as [[r st'] log].
Qed.

(** C7: on mount, and whenever the current page is set to a different
    value, exactly one request is issued, for the zero-indexed page
    currentPage - 1 with page size 10; when the response parses to an
    array of rows, the stored rows become exactly that array. *)
Theorem C7_one_request_per_page net st (ev : App.Event) page :
  (ev = App.Mount /\ page = App.currentPage st)
  \/ (ev = App.SetCurrentPage page /\ page <> App.currentPage st) ->
  App.requests (App.step net ev st).2
  = ["https://spicesinfo.in/auction-all/" +:+ pretty (page - 1)%Z +:+ "/10"]
  /\ App.currentPage (App.step net ev st).1 = page
  /\ forall response rows,
       net (App.requestUrl page) = inr response ->
       App.json_result response = inr rows ->
       App.data (App.step net ev st).1 = rows
       /\ App.SetData rows ∈ (App.step net ev st).2.
Proof.
  intros Hev. rewrite (step_run _ _ _ _ Hev). simpl.
  split; [apply fetchData_requests|]. split; [apply fetchData_requests|].
  intros response rows Hn Hj. rewrite (fetchData_success _ _ _ _ _ Hn Hj). simpl.
  split; [reflexivity|]. do 2 right. left.
Qed.

(** C8: every run of the fetch sets the loading flag before the request
    and clears it last, whether the request succeeds or fails, and it
    ends with the flag cleared; when the request is rejected or its body
    does not parse, the error is logged and the stored rows are the ones
    from before, so the screen is back in the state it was in before
    the request began. *)
Theorem C8_loading_flag_and_failure net st page :
  (exists middle,
     (App.fetchData page net st).2
     = App.SetIsLoading true :: App.Fetch (App.requestUrl page)
         :: middle ++ [App.SetIsLoading false]
     /\ forall flag, App.SetIsLoading flag ∉ middle)
  /\ App.isLoading (App.fetchData page net st).1.2 = false
  /\ (App.fetchData page net st).1.1 = App.Normal ()
  /\ forall e,
       net (App.requestUrl page) = inl e
       \/ (exists response, net (App.requestUrl page) = inr response
                            /\ App.json_result response = inl e) ->
       App.data (App.fetchData page net st).1.2 = App.data st
       /\ (App.isLoading st = false -> (App.fetchData page net st).1.2 = st)
       /\ App.ConsoleError "Error fetching data:" e ∈ (App.fetchData page net st).2
       /\ forall rows, App.SetData rows ∉ (App.fetchData page net st).2.
Proof.
  split; [|split; [|split]].
  - destruct (fetchData_cases net st page) as [(e & He)|(response & rows & Hn & Hj)].
    + rewrite (fetchData_failure _ _ _ _ He).
      exists [App.ConsoleError "Error fetching data:" e]. split; [reflexivity|].
      intros flag Hin. apply list_elem_of_singleton in Hin. discriminate Hin.
    + rewrite (fetchData_success _ _ _ _ _ Hn Hj).
      exists [App.SetData rows]. split; [reflexivity|].
      intros flag Hin. apply list_elem_of_singleton in Hin. discriminate Hin.
  - destruct (fetchData_cases net st page) as [(e & He)|(response & rows & Hn & Hj)].
    + now rewrite (fetchData_failure _ _ _ _ He).
    + now rewrite (fetchData_success _ _ _ _ _ Hn Hj).
  - destruct (fetchData_cases net st page) as [(e & He)|(response & rows & Hn & Hj)].
    + now rewrite (fetchData_failure _ _ _ _ He).
    + now rewrite (fetchData_success _ _ _ _ _ Hn Hj).
  - intros e He. rewrite (fetchData_failure _ _ _ _ He). simpl.
    split; [reflexivity|]. split.
    { intros Hl. destruct st as [d c l]. simpl in Hl. now subst l. }
    split; [do 2 right; left|].
    intros rows Hin.
    repeat (apply elem_of_cons in Hin as [Hin|Hin]; [discriminate Hin|]).
    now apply elem_of_nil in Hin.
Qed.

(** ** Sorting *)

Lemma columns_text_headers st :
  Forall (fun c => exists s, header c = TemplateString s) (columns (App.props st)).
Proof. simpl. unfold App.columns. repeat constructor; eexists; reflexivity. Qed.

(** One goal per node of an explicit list of nodes. *)
Ltac each_node := repeat first [apply Forall_nil_2 | apply Forall_cons_2].

Lemma renderRow_clicks st sorting (r : Row App.AuctionData) :
  Forall App.page_change_only (subtree (renderRow (App.props st) sorting r)).
Proof. simpl. each_node; left; reflexivity. Qed.

Lemma renderBody_clicks st sorting :
  Forall (fun c => Forall App.page_change_only (subtree c))
    (renderBody (App.props st) sorting).
Proof.
  unfold renderBody. destruct (isLoading (App.props st)).
  { each_node; left; reflexivity. }
  destruct (0 <? length (getRowModel (table (App.props st) sorting)))%nat.
  - apply Forall_fmap, Forall_forall. intros r _. apply renderRow_clicks.
  - each_node; left; reflexivity.
Qed.

Lemma renderPager_clicks st :
  Forall App.page_change_only (subtree (renderPager (App.props st))).
Proof.
  simpl. each_node; try (left; reflexivity).
  - unfold App.page_change_only, click, is_disabled. simpl.
    destruct (App.currentPage st =? 1)%Z; [now left|right; eauto].
  - unfold App.page_change_only, click, is_disabled. simpl.
    destruct (App.currentPage st =? 10)%Z; [now left|right; eauto].
Qed.

Lemma renderHeader_clicks st sorting :
  Forall (fun n => click n = []) (subtree (renderHeader (App.props st) sorting)).
Proof. vm_compute. each_node; reflexivity. Qed.

Lemma App_clicks st sorting :
  Forall App.page_change_only (subtree (App.App st sorting)).
Proof.
  unfold App.App, DataTable.
  change (renderSearch (App.props st)) with (@nil (VNode App.AuctionData)).
  rewrite app_nil_l.
  apply Forall_subtree_Element; [now left|].
  apply Forall_cons_2; [|apply Forall_nil_2].
  apply Forall_subtree_Element; [now left|].
  apply Forall_cons_2;
    [|apply Forall_cons_2; [apply renderPager_clicks|apply Forall_nil_2]].
  apply Forall_subtree_Element; [now left|].
  apply Forall_cons_2; [|apply Forall_nil_2].
  apply Forall_subtree_Element; [now left|].
  apply Forall_cons_2; [|apply Forall_cons_2; [|apply Forall_nil_2]].
  - eapply Forall_impl; [apply renderHeader_clicks|]. intros n Hn. now left.
  - apply Forall_subtree_Element; [now left|]. apply renderBody_clicks.
Qed.

Lemma handle_keeps_sorting net st sorting (n : VNode App.AuctionData) :
  App.page_change_only n ->
  (App.handle net (click n) (st, sorting)).1.2 = sorting.
Proof.
  intros [Hn|[page Hn]]; rewrite Hn; [reflexivity|].
  cbn [App.handle App.dispatch fst snd].
  destruct (App.step net (App.SetCurrentPage page) st) as [st' log]. reflexivity.
Qed.

(** C1: for every loaded page, no node of the rendered
    header reacts to a click, and no click anywhere in the screen
    changes the sorting state, so clicking a column header toggles
    nothing; the sorting state is kept by the renderer, and setting it
    issues no request, leaves the screen's state as it is and changes
    nothing of what is rendered; whatever the sorting state, the rows
    shown are the rows of the loaded page in the order of the data. *)
Theorem C1_sorting_is_inert net st sorting :
  Forall (fun n => click n = []) (subtree (renderHeader (App.props st) sorting))
  /\ Forall (fun n => (App.handle net (click n) (st, sorting)).1.2 = sorting)
            (subtree (App.App st sorting))
  /\ (forall sorting',
        App.dispatch net (SetSorting sorting') (st, sorting) = ((st, sorting'), [])
        /\ App.App st sorting' = App.App st sorting)
  /\ (forall sorting',
        map row_original (getRowModel (table (App.props st) sorting')) = App.data st).
Proof.
  split; [|split; [|split]].
  - apply renderHeader_clicks.
  - eapply Forall_impl; [apply App_clicks|].
    intros n Hn. now apply handle_keeps_sorting.
  - intros sorting'. split; [reflexivity|].
    unfold App.App.
    now rewrite (DataTable_sorting (App.props st) sorting' sorting
                   (columns_text_headers st)).
  - intros sorting'. rewrite getRowModel_core. apply getCoreRowModel_original.
Qed.

End Screen.

(** * Worked examples *)

(** ** Where the behaviour differs from a first reading *)

(** C1: on the page [3; 1; 2] a click on the header of the column
    "lots" calls nothing, so the sorting state stays empty and no
    request is issued; and even with a sorting state that names the
    column, ascending or descending, the rows stay in the order 3, 1, 2:
    the header toggles nothing and the page is not reordered. *)
Lemma C1_counterexample :
  exists head : VNode App.AuctionData,
    at_path Samples.lots_head_path (App.App Samples.page_3_1_2 []) = Some head
    /\ textContent head = "Lots"
    /\ App.handle (Samples.serves []) (click head) (Samples.page_3_1_2, [])
       = ((Samples.page_3_1_2, []), [])
    /\ map (fun r => App.lots (row_original r))
           (getRowModel (table (App.props Samples.page_3_1_2) Samples.by_lots))
       = [3; 1; 2]%Z
    /\ map (fun r => App.lots (row_original r))
           (getRowModel (table (App.props Samples.page_3_1_2) Samples.by_lots_desc))
       = [3; 1; 2]%Z.
Proof.
  eexists. split; [vm_compute; reflexivity|].
  repeat split; vm_compute; reflexivity.
Qed.

(** C2: with an edit route but neither callback, no actions column is
    appended. *)
Lemma C2_counterexample :
  editRoute (Samples.with_actions false false (Some "/items/edit"))
  = Some "/items/edit"
  /\ tableColumns (Samples.with_actions false false (Some "/items/edit"))
     = columns (Samples.with_actions false false (Some "/items/edit"))
  /\ map id (tableColumns (Samples.with_actions false false (Some "/items/edit")))
     = ["dateString"; "auctioneer"; "lots"; "qty"; "qtySold"; "maxPrice";
        "avgPrice"; "type"]
  /\ tableColumns (Samples.with_actions false false (Some "/items/edit"))
     <> columns (Samples.with_actions false false (Some "/items/edit"))
        ++ [actionsColumn (Samples.with_actions false false (Some "/items/edit"))].
Proof.
  repeat split. intros Heq. apply (f_equal length) in Heq. discriminate Heq.
Qed.

(** C6: with the edit route supplied as the empty string, a click on
    the edit control of row 42 calls the edit callback and does not
    navigate to "/42". *)
Lemma C6_counterexample :
  editRoute (Samples.with_actions true true (Some "")) = Some ""
  /\ click (editButton (Samples.with_actions true true (Some "")) (Samples.row_of 0 42))
     = [OnEdit (Samples.auction 42)]
  /\ click (editButton (Samples.with_actions true true (Some "")) (Samples.row_of 0 42))
     <> [Navigate ("" +:+ "/" +:+ "42")].
Proof. repeat split. intros Heq. discriminate Heq. Qed.

(** ** The theorems at concrete inputs *)

Lemma C3_body_states_witness :
  renderBody (App.props Samples.loading_page) []
  = [placeholderRow (App.props Samples.loading_page) "Loading..."]
  /\ renderBody (App.props Samples.empty_page) []
     = [placeholderRow (App.props Samples.empty_page) "No results."]
  /\ length (renderBody (App.props Samples.page_3_1_2) []) = 3%nat.
Proof.
  split; [|split].
  - apply (C3_body_states (App.props Samples.loading_page) []). reflexivity.
  - apply (C3_body_states (App.props Samples.empty_page) []); reflexivity.
  - apply (C3_body_states (App.props Samples.page_3_1_2) []);
      [reflexivity | simpl; lia].
Defined.

Lemma C10_rows_in_data_order_witness :
  map row_original (getRowModel (table (App.props Samples.page_3_1_2) Samples.by_lots))
  = [Samples.auction 3; Samples.auction 1; Samples.auction 2]
  /\ renderBody (App.props Samples.page_3_1_2) Samples.by_lots !! 1%nat
     = Some (renderRow (App.props Samples.page_3_1_2) Samples.by_lots
               (Samples.row_of 1 1)).
Proof.
  assert (Hl : isLoading (App.props Samples.page_3_1_2) = false) by reflexivity.
  assert (Hd : data (App.props Samples.page_3_1_2) <> []) by discriminate.
  destruct (C10_rows_in_data_order (App.props Samples.page_3_1_2) Samples.by_lots Hl Hd)
    as (Horder & _ & Hrow & _).
  split; [exact Horder|].
  apply (Hrow 1%nat (Samples.auction 1)). reflexivity.
Defined.

Lemma C4_delete_needs_confirmation_witness :
  dialog_run (Samples.row_of 0 42) false
    [ClickTrigger; ClickCancel; ClickTrigger; Dismiss; ClickTrigger; ClickAction]
  = Some (false, [OnDelete (Samples.auction 42)])
  /\ (OnDelete (Samples.auction 42) ∈ [OnDelete (Samples.auction 42)]
      <-> ClickAction
          ∈ [ClickTrigger; ClickCancel; ClickTrigger; Dismiss; ClickTrigger; ClickAction]).
Proof.
  split; [reflexivity|].
  apply (C4_delete_needs_confirmation (Samples.with_actions true true None)
           {| row := Samples.row_of 0 42; cell_column_id := "actions" |}
           [ClickTrigger; ClickCancel; ClickTrigger; Dismiss; ClickTrigger; ClickAction]
           false [OnDelete (Samples.auction 42)]).
  reflexivity.
Defined.

Lemma C6_edit_route_or_callback_witness :
  click (editButton (Samples.with_actions true true (Some "/items/edit"))
           (Samples.row_of 0 42))
  = [Navigate "/items/edit/42"]
  /\ click (editButton (Samples.with_actions true false None) (Samples.row_of 0 42))
     = [OnEdit (Samples.auction 42)].
Proof.
  assert (Hroute : editRoute (Samples.with_actions true true (Some "/items/edit"))
                   = Some "/items/edit") by reflexivity.
  assert (Hne : "/items/edit" <> "") by discriminate.
  assert (Hnone : editRoute (Samples.with_actions true false None) = None
                  \/ editRoute (Samples.with_actions true false None) = Some "")
    by (left; reflexivity).
  destruct (C6_edit_route_or_callback
              (Samples.with_actions true true (Some "/items/edit"))
              {| row := Samples.row_of 0 42; cell_column_id := "actions" |})
    as (_ & Hnav & _).
  destruct (C6_edit_route_or_callback (Samples.with_actions true false None)
              {| row := Samples.row_of 0 42; cell_column_id := "actions" |})
    as (_ & _ & Hcall).
  split.
  - exact (proj1 (Hnav "/items/edit" Hroute Hne)).
  - exact (proj1 (Hcall Hnone)).
Defined.

Lemma C7_one_request_per_page_witness :
  App.requests (App.step (Samples.serves Samples.two_rows) (App.SetCurrentPage 3)
                  App.initialState).2
  = ["https://spicesinfo.in/auction-all/2/10"]
  /\ App.data (App.step (Samples.serves Samples.two_rows) (App.SetCurrentPage 3)
                 App.initialState).1
     = Samples.two_rows.
Proof.
  assert (Hev : (App.SetCurrentPage 3 = App.Mount /\ 3%Z = App.currentPage App.initialState)
                \/ (App.SetCurrentPage 3 = App.SetCurrentPage 3
                    /\ 3%Z <> App.currentPage App.initialState)).
  { right. split; [reflexivity | discriminate]. }
  destruct (C7_one_request_per_page (Samples.serves Samples.two_rows) App.initialState
              (App.SetCurrentPage 3) 3 Hev) as (Hreq & _ & Hok).
  split; [exact Hreq|].
  apply (Hok {| App.json_result := inr Samples.two_rows |} Samples.two_rows);
    reflexivity.
Defined.

Lemma C8_loading_flag_and_failure_witness :
  App.isLoading (App.fetchData 4 Samples.offline Samples.loading_page).1.2 = false
  /\ App.data (App.fetchData 4 Samples.offline Samples.loading_page).1.2
     = App.data Samples.loading_page
  /\ App.data (App.fetchData 4 Samples.garbled Samples.page_3_1_2).1.2
     = App.data Samples.page_3_1_2.
Proof.
  destruct (C8_loading_flag_and_failure Samples.offline Samples.loading_page 4)
    as (_ & Hflag & _ & Hoffline).
  destruct (C8_loading_flag_and_failure Samples.garbled Samples.page_3_1_2 4)
    as (_ & _ & _ & Hgarbled).
  split; [exact Hflag|]. split.
  - apply (Hoffline (App.TypeError "Failed to fetch")). left. reflexivity.
  - apply (Hgarbled (App.SyntaxError "Unexpected token < in JSON")).
    right. eexists. split; reflexivity.
Defined.

Lemma C9_search_input_witness :
  at_path [0; 0]%nat (DataTable (Samples.with_search true "carda") [])
  = Some (searchInput (Samples.with_search true "carda"))
  /\ change "cardam" (searchInput (Samples.with_search true "carda"))
     = [OnSearch "cardam"]
  /\ renderSearch (Samples.with_search false "carda") = [].
Proof.
  destruct (C9_search_input (Samples.with_search true "carda") [])
    as (Hwith & _ & _ & _ & Hchange).
  destruct (C9_search_input (Samples.with_search false "carda") [])
    as (_ & Hwithout & _).
  split; [|split].
  - apply Hwith. reflexivity.
  - apply Hchange.
  - apply Hwithout. reflexivity.
Defined.

(** The scenario of the specification: page 3 of 10 with two rows. *)
Example page_3_of_10 :
  textContent (pageLabel (App.props
     {| App.data := Samples.two_rows; App.currentPage := 3; App.isLoading := false |}))
  = "Page 3 of 10"
  /\ length (renderBody (App.props
       {| App.data := Samples.two_rows; App.currentPage := 3; App.isLoading := false |})
       []) = 2%nat.
Proof. split; reflexivity. Qed.

(** Mounting the screen in its initial state asks for page 0. *)
Example mount_requests_page_0 :
  App.step (Samples.serves Samples.two_rows) App.Mount App.initialState
  = ({| App.data := Samples.two_rows; App.currentPage := 1; App.isLoading := false |},
     [App.SetIsLoading true; App.Fetch "https://spicesinfo.in/auction-all/0/10";
      App.SetData Samples.two_rows; App.SetIsLoading false]).
Proof. reflexivity. Qed.

(** Setting the page to the one already shown runs no effect. *)
Example same_page_no_request :
  App.step Samples.offline (App.SetCurrentPage 3) Samples.page_3_1_2
  = (Samples.page_3_1_2, []).
Proof. reflexivity. Qed.

(** Nothing clamps the argument of the page-change callback: on page 0
    Previous is enabled and asks for page -1. *)
Example previous_below_first_page :
  click (previousButton (App.props
     {| App.data := []; App.currentPage := 0; App.isLoading := false |}))
  = [OnPageChange (-1)].
Proof. reflexivity. Qed.

(** * More on the renderer *)

Section RendererMore.

Context {T : Type} `{HasId T}.

Implicit Types (p : DataTableProps T) (sorting : SortingState) (r : Row T).

(** ** Column identifiers *)

Lemma tableColumns_with_callback p :
  onEdit p || onDelete p = true -> tableColumns p = columns p ++ [actionsColumn p].
Proof.
  unfold tableColumns. destruct (onEdit p), (onDelete p); simpl; congruence.
Qed.

Lemma tableColumns_without_callback p :
  onEdit p || onDelete p = false -> tableColumns p = columns p.
Proof.
  unfold tableColumns. destruct (onEdit p), (onDelete p); simpl; congruence.
Qed.

(** X1: the identifiers of the rendered columns are pairwise distinct
    exactly when those of the supplied columns are and, if a callback
    makes the renderer append its own column, no supplied column is
    itself called "actions". *)
Theorem tableColumns_ids_distinct p :
  NoDup (map id (tableColumns p))
  <-> NoDup (map id (columns p))
      /\ (onEdit p || onDelete p = true -> "actions" ∉ map id (columns p)).
Proof.
  destruct (onEdit p || onDelete p) eqn:Hcb.
  - rewrite (tableColumns_with_callback _ Hcb), map_app. simpl.
    rewrite NoDup_app. split.
    + intros (Hnd & Hnot & _). split; [exact Hnd|].
      intros _ Hin. apply (Hnot _ Hin). left.
    + intros (Hnd & Hnot). split; [exact Hnd|]. split.
      * intros x Hx Hx'. apply list_elem_of_singleton in Hx'. subst x. now apply Hnot.
      * apply NoDup_singleton.
  - rewrite (tableColumns_without_callback _ Hcb). split.
    + intros Hnd. split; [exact Hnd|]. discriminate.
    + now intros (Hnd & _).
Qed.

(** ** The controls of a row *)

Lemma renderRow_cell p sorting r (j : nat) (c : ColumnDef T) :
  tableColumns p !! j = Some c ->
  children_of (renderRow p sorting r) !! j
  = Some (renderCell p {| cell_id := row_id r +:+ "_" +:+ id c; cell_row := r;
                          cell_column := c |}).
Proof.
  intros Hc. simpl. unfold getVisibleCells. simpl.
  now rewrite !list_lookup_fmap, Hc.
Qed.

Lemma renderBody_row p sorting (i : nat) (x : T) :
  isLoading p = false -> data p !! i = Some x ->
  renderBody p sorting !! i
  = Some (renderRow p sorting {| row_id := pretty i; row_index := i; row_original := x |}).
Proof.
  intros Hl Hx.
  assert (Hd : data p <> []) by (intros E; now rewrite E in Hx).
  rewrite (renderBody_loaded _ _ Hl Hd), list_lookup_fmap. unfold getCoreRowModel.
  now rewrite list_lookup_imap, Hx.
Qed.

(** X2: when a callback is supplied, the last cell of the i-th body row
    holds the controls of the i-th record of the data: its edit control
    navigates with, or passes on, that record, and the affirmative
    control of its dialog passes that record to the delete callback. *)
Theorem row_controls_act_on_own_record p sorting (i : nat) (x : T) :
  isLoading p = false -> data p !! i = Some x -> onEdit p || onDelete p = true ->
  exists tr,
    renderBody p sorting !! i = Some tr
    /\ length (children_of tr) = S (length (columns p))
    /\ at_path [length (columns p); 0]%nat tr
       = Some (actionsCell p
                 {| row := {| row_id := pretty i; row_index := i; row_original := x |};
                    cell_column_id := "actions" |})
    /\ (onEdit p = true ->
        exists control,
          at_path [length (columns p); 0; 0]%nat tr = Some control
          /\ click control
             = if Js.truthy (editRoute p)
               then [Navigate (default "" (editRoute p) +:+ "/"
                               +:+ Js.to_string (record_id x))]
               else [OnEdit x])
    /\ (onDelete p = true ->
        exists control,
          at_path [length (columns p); 0; if onEdit p then 1 else 0; 1; 1; 1]%nat tr
          = Some control
          /\ click control = [OnDelete x]).
Proof.
  intros Hl Hx Hcb. eexists. split; [exact (renderBody_row p sorting i x Hl Hx)|].
  assert (Hlast : tableColumns p !! length (columns p) = Some (actionsColumn p)).
  { rewrite (tableColumns_with_callback _ Hcb).
    rewrite lookup_app_r by lia. now rewrite Nat.sub_diag. }
  split.
  { simpl. unfold getVisibleCells. simpl.
    rewrite !length_map, (tableColumns_with_callback _ Hcb), length_app. simpl. lia. }
  split; [|split].
  - cbn [at_path]. rewrite (renderRow_cell _ _ _ _ _ Hlast). reflexivity.
  - intros He. cbn [at_path]. rewrite (renderRow_cell _ _ _ _ _ Hlast).
    simpl. rewrite He. simpl. eexists. split; reflexivity.
  - intros Hd. cbn [at_path]. rewrite (renderRow_cell _ _ _ _ _ Hlast).
    simpl. rewrite Hd. destruct (onEdit p); simpl; eexists; split; reflexivity.
Qed.

(** X16: without an edit callback the edit route has no effect: the
    actions cell of a row then holds no edit control, and the only call
    any of its elements can make is the delete callback with the record
    of that row. *)
Theorem edit_route_inert_without_callback p (ctx : CellContext T) :
  onEdit p = false ->
  children_of (actionsCell p ctx)
  = (if onDelete p then [deleteDialog (row ctx)] else [])
  /\ forall n c,
       n ∈ subtree (actionsCell p ctx) ->
       c ∈ default [] (onClick_of n) ->
       c = OnDelete (row_original (row ctx)).
Proof.
  intros He. unfold actionsCell. rewrite He. split; [reflexivity|].
  intros n c. destruct (onDelete p); simpl;
    rewrite ?elem_of_cons, ?elem_of_nil; intros Hn Hc;
    repeat (destruct Hn as [->|Hn]; simpl in Hc;
            [first [ now apply elem_of_nil in Hc
                   | now apply list_elem_of_singleton in Hc ]|]);
    done.
Qed.

(** ** The header row *)

(** X3: the header is a single row with one head per rendered column,
    in the order of the columns; with plain-text headers its heads read
    the supplied header texts followed, when a callback is supplied, by
    "Actions"; and the placeholder row of the body spans exactly as
    many columns as the header has heads. *)
Theorem header_row_texts p sorting (texts : list string) :
  Forall2 (fun c s => header c = TemplateString s) (columns p) texts ->
  exists heads,
    children_of (renderHeader p sorting)
    = [Element "TableRow" [("key", AStr "0")] heads]
    /\ Forall (fun h => tag_of h = Some "TableHead") heads
    /\ map textContent heads
       = texts ++ (if onEdit p || onDelete p then ["Actions"] else [])
    /\ forall message,
         at_path [0%nat] (placeholderRow p message) ≫= (fun td =>
           get_attr "colSpan" (attrs_of td))
         = Some (ANum (Z.of_nat (length heads))).
Proof.
  intros Htexts. eexists. split; [reflexivity|]. split; [|split].
  - apply Forall_forall. intros h Hh.
    apply list_elem_of_fmap in Hh as (h' & -> & _). reflexivity.
  - simpl. rewrite <- list_fmap_compose.
    assert (Hcols : forall cs ts,
               Forall2 (fun c s => header c = TemplateString s) cs ts ->
               map (textContent ∘ renderHead p sorting)
                 (map (fun c => {| header_id := id c; header_column := c;
                                   isPlaceholder := false |}) cs) = ts).
    { intros cs ts Hcs. induction Hcs as [|c s cs ts Hc _ IH]; [reflexivity|].
      simpl. rewrite IH. f_equal. rewrite Hc. apply string_app_empty_r. }
    destruct (onEdit p || onDelete p) eqn:Hcb.
    + rewrite (tableColumns_with_callback _ Hcb). apply Hcols.
      apply Forall2_app; [exact Htexts|]. now constructor.
    + rewrite (tableColumns_without_callback _ Hcb), app_nil_r. now apply Hcols.
  - intros message. simpl. now rewrite !length_map.
Qed.

(** ** Column styles *)

Lemma styleOf_lookup p (k : string) :
  styleOf p k = default "" (columnStyles p !! k).
Proof.
  unfold styleOf. destruct (columnStyles p !! k) as [s|]; [|reflexivity].
  now destruct s.
Qed.

(** X4: the head and every body cell of a column carry one and the
    same class, and it is the entry of the column's identifier in the
    style mapping when the mapping has one. *)
Theorem column_class_from_styles p sorting (j : nat) (c : ColumnDef T) :
  tableColumns p !! j = Some c ->
  exists cls : string,
    (exists h,
       at_path [0%nat; j] (renderHeader p sorting) = Some h
       /\ get_attr "className" (attrs_of h) = Some (AStr cls))
    /\ (forall r,
         exists td,
           children_of (renderRow p sorting r) !! j = Some td
           /\ get_attr "className" (attrs_of td) = Some (AStr cls))
    /\ forall s, columnStyles p !! id c = Some s -> cls = s.
Proof.
  intros Hc. exists (styleOf p (id c)). split; [|split].
  - eexists. split.
    + cbn [at_path]. simpl. rewrite !list_lookup_fmap, Hc. reflexivity.
    + reflexivity.
  - intros r. eexists. split; [exact (renderRow_cell p sorting r j c Hc)|].
    reflexivity.
  - intros s Hs. now rewrite styleOf_lookup, Hs.
Qed.

(** ** Keys *)

Lemma fmap_imap_seq {A B C : Type} (f : B -> C) (g : nat -> A -> B) (h : nat -> C)
    (l : list A) :
  (forall i x, f (g i x) = h i) ->
  map f (imap g l) = map h (seq 0 (length l)).
Proof.
  revert g h. induction l as [|x l IH]; intros g h Hgh; [reflexivity|].
  simpl. rewrite Hgh. f_equal.
  rewrite <- fmap_S_seq, <- list_fmap_compose.
  apply IH. intros i y. apply Hgh.
Qed.

Lemma renderRow_cell_keys p sorting r :
  map (fun td => get_attr "key" (attrs_of td)) (children_of (renderRow p sorting r))
  = map (fun k : string => Some (AStr (row_id r +:+ "_" +:+ k)))
        (map id (tableColumns p)).
Proof.
  simpl. unfold getVisibleCells. simpl.
  induction (tableColumns p) as [|c cs IH]; [reflexivity|].
  simpl. now rewrite IH.
Qed.

(** X5: the keys of the body rows of a loaded page are the positions of
    the records, 0, 1, 2, ..., hence pairwise distinct; and in every
    row the keys of the cells are pairwise distinct whenever the
    identifiers of the rendered columns are. *)
Theorem body_keys_distinct p sorting :
  isLoading p = false -> data p <> [] ->
  map (fun tr => get_attr "key" (attrs_of tr)) (renderBody p sorting)
  = map (fun i : nat => Some (AStr (pretty i))) (seq 0 (length (data p)))
  /\ NoDup (map (fun tr => get_attr "key" (attrs_of tr)) (renderBody p sorting))
  /\ (NoDup (map id (tableColumns p)) ->
      Forall (fun tr => NoDup (map (fun td => get_attr "key" (attrs_of td))
                                   (children_of tr)))
             (renderBody p sorting)).
Proof.
  intros Hl Hd. rewrite (renderBody_loaded _ _ Hl Hd).
  assert (Hkeys : map (fun tr => get_attr "key" (attrs_of tr))
                      (map (renderRow p sorting) (getCoreRowModel (data p)))
                  = map (fun i : nat => Some (AStr (pretty i)))
                        (seq 0 (length (data p)))).
  { rewrite <- list_fmap_compose. unfold getCoreRowModel.
    apply fmap_imap_seq. reflexivity. }
  split; [exact Hkeys|]. split.
  - rewrite Hkeys. apply NoDup_fmap_2; [|apply NoDup_seq].
    intros i k Hik. inversion Hik as [Hp]. now apply (inj pretty) in Hp.
  - intros Hids. apply Forall_forall. intros tr Htr.
    apply list_elem_of_fmap in Htr as (r & -> & _).
    rewrite renderRow_cell_keys. apply NoDup_fmap_2; [|exact Hids].
    intros k1 k2 Hk. inversion Hk as [Hs].
    apply (inj (String.append (row_id r))) in Hs.
    now apply (inj (String.append "_")) in Hs.
Qed.

End RendererMore.

(** * More on the screen *)

Section ScreenMore.

Implicit Types (net : App.Network) (st : App.State) (page : Z) (sorting : SortingState).

(** ** The address of a page *)




(** ** The pager of the screen *)

Lemma press_enabled net st sorting (c : Pager.Control) (target : Z) :
  click (Pager.control c st) = [OnPageChange target] ->
  Pager.press net c (st, sorting)
  = (((App.step net (App.SetCurrentPage target) st).1, sorting),
     (App.step net (App.SetCurrentPage target) st).2).
Proof.
  intros Hc. unfold Pager.press. cbn [fst]. rewrite Hc.
  cbn [App.handle App.dispatch fst snd].
  destruct (App.step net (App.SetCurrentPage target) st) as [st' log].
  now rewrite app_nil_r.
Qed.

Lemma press_disabled net st sorting (c : Pager.Control) :
  click (Pager.control c st) = [] ->
  Pager.press net c (st, sorting) = ((st, sorting), []).
Proof. intros Hc. unfold Pager.press. cbn [fst]. now rewrite Hc. Qed.

Lemma click_previous st :
  click (Pager.control Pager.Previous st)
  = if (App.currentPage st =? 1)%Z then []
    else [OnPageChange (App.currentPage st - 1)].
Proof.
  unfold click, is_disabled. simpl. now destruct (App.currentPage st =? 1)%Z.
Qed.

Lemma click_next st :
  click (Pager.control Pager.Next st)
  = if (App.currentPage st =? 10)%Z then []
    else [OnPageChange (App.currentPage st + 1)].
Proof.
  unfold click, is_disabled. simpl. now destruct (App.currentPage st =? 10)%Z.
Qed.

Lemma step_to_other_page net st page :
  page <> App.currentPage st ->
  App.currentPage (App.step net (App.SetCurrentPage page) st).1 = page
  /\ App.requests (App.step net (App.SetCurrentPage page) st).2 = [App.requestUrl page].
Proof.
  intros Hne.
  rewrite (step_run net st (App.SetCurrentPage page) page) by (right; now split).
  simpl. split; apply fetchData_requests.
Qed.


Lemma requests_app (log1 log2 : list App.Effect) :
  App.requests (log1 ++ log2) = App.requests log1 ++ App.requests log2.
Proof. unfold App.requests. apply omap_app. Qed.

Lemma press_in_range net st sorting (c : Pager.Control) :
  (1 <= App.currentPage st <= 10)%Z ->
  (1 <= App.currentPage (Pager.press net c (st, sorting)).1.1 <= 10)%Z
  /\ (Pager.press net c (st, sorting)).1.2 = sorting
  /\ Forall (fun url => exists k, (0 <= k <= 9)%Z /\ url = App.requestUrl (k + 1))
            (App.requests (Pager.press net c (st, sorting)).2).
Proof.
  intros Hrange.
  assert (Hmove : forall target,
             target <> App.currentPage st -> (1 <= target <= 10)%Z ->
             click (Pager.control c st) = [OnPageChange target] ->
             (1 <= App.currentPage (Pager.press net c (st, sorting)).1.1 <= 10)%Z
             /\ (Pager.press net c (st, sorting)).1.2 = sorting
             /\ Forall (fun url => exists k, (0 <= k <= 9)%Z
                                             /\ url = App.requestUrl (k + 1))
                       (App.requests (Pager.press net c (st, sorting)).2)).
  { intros target Hne Ht Hc. rewrite (press_enabled _ _ _ _ _ Hc). cbn [fst snd].
    destruct (step_to_other_page net st target Hne) as [Hp Hr]. rewrite Hp, Hr.
    split; [exact Ht|]. split; [reflexivity|].
    constructor; [|constructor]. exists (target - 1)%Z. split; [lia|].
    f_equal. lia. }
  assert (Hstay : click (Pager.control c st) = [] ->
             (1 <= App.currentPage (Pager.press net c (st, sorting)).1.1 <= 10)%Z
             /\ (Pager.press net c (st, sorting)).1.2 = sorting
             /\ Forall (fun url => exists k, (0 <= k <= 9)%Z
                                             /\ url = App.requestUrl (k + 1))
                       (App.requests (Pager.press net c (st, sorting)).2)).
  { intros Hc. rewrite (press_disabled _ _ _ _ Hc). cbn [fst snd].
    split; [exact Hrange|]. split; [reflexivity|constructor]. }
  destruct c.
  - destruct (Z.eqb_spec (App.currentPage st) 1) as [Heq|Hne].
    + apply Hstay. rewrite click_previous, Heq. reflexivity.
    + apply (Hmove (App.currentPage st - 1)%Z); [lia|lia|].
      rewrite click_previous. now destruct (Z.eqb_spec (App.currentPage st) 1).
  - destruct (Z.eqb_spec (App.currentPage st) 10) as [Heq|Hne].
    + apply Hstay. rewrite click_next, Heq. reflexivity.
    + apply (Hmove (App.currentPage st + 1)%Z); [lia|lia|].
      rewrite click_next. now destruct (Z.eqb_spec (App.currentPage st) 10).
Qed.

(** X8: starting on a page between 1 and 10, no sequence of clicks on
    Previous and Next takes the screen outside the pages 1 to 10, and
    every request made on the way is for one of the zero-indexed pages
    0 to 9. *)
Theorem pager_stays_in_range net (cs : list Pager.Control) st sorting :
  (1 <= App.currentPage st <= 10)%Z ->
  (1 <= App.currentPage (Pager.presses net cs (st, sorting)).1.1 <= 10)%Z
  /\ Forall (fun url =>
               exists k, (0 <= k <= 9)%Z
                         /\ url = "https://spicesinfo.in/auction-all/" +:+ pretty k
                                  +:+ "/10")
            (App.requests (Pager.presses net cs (st, sorting)).2).
Proof.
  revert st. induction cs as [|c cs IH]; intros st Hrange.
  - simpl. split; [exact Hrange|constructor].
  - simpl.
    destruct (press_in_range net st sorting c Hrange) as (Hr1 & Hs1 & Hu1).
    destruct (Pager.press net c (st, sorting)) as [[st1 sorting1] log1].
    simpl in Hr1, Hs1, Hu1. subst sorting1.
    destruct (IH st1 Hr1) as (Hr2 & Hu2).
    destruct (Pager.presses net cs (st1, sorting)) as [[st2 sorting2] log2].
    simpl in *. split; [exact Hr2|].
    rewrite requests_app. apply Forall_app. split; [|exact Hu2].
    eapply Forall_impl; [exact Hu1|].
    intros url (k & Hk & ->). exists k. split; [exact Hk|].
    unfold App.requestUrl. do 2 f_equal. f_equal. lia.
Qed.

(** ** What the screen shows after a page change *)

Lemma screen_label st :
  textContent (pageLabel (App.props st))
  = "Page " +:+ pretty (App.currentPage st) +:+ " of 10".
Proof. now rewrite pageLabel_text. Qed.

(** X9: when the request of a page change fails, the pager shows the
    new page number while the header and the body are rendered as they
    were before the change, with the rows of the page shown before. *)
Theorem failed_page_change_keeps_rows net st page (e : App.Error) sorting :
  page <> App.currentPage st ->
  App.isLoading st = false ->
  net (App.requestUrl page) = inl e
  \/ (exists response, net (App.requestUrl page) = inr response
                       /\ App.json_result response = inl e) ->
  textContent (pageLabel (App.props (App.step net (App.SetCurrentPage page) st).1))
  = "Page " +:+ pretty page +:+ " of 10"
  /\ renderBody (App.props (App.step net (App.SetCurrentPage page) st).1) sorting
     = renderBody (App.props st) sorting
  /\ renderHeader (App.props (App.step net (App.SetCurrentPage page) st).1) sorting
     = renderHeader (App.props st) sorting
  /\ (App.step net (App.SetCurrentPage page) st).1
     = {| App.data := App.data st; App.currentPage := page; App.isLoading := false |}.
Proof.
  intros Hne Hl He.
  rewrite (step_run net st (App.SetCurrentPage page) page) by (right; now split).
  rewrite (fetchData_failure _ _ _ _ He). cbn [fst snd App.data App.currentPage].
  split; [apply screen_label|].
  split; [|split; reflexivity].
  unfold renderBody. cbn [isLoading App.props App.isLoading]. now rewrite Hl.
Qed.

(** X10: when the request of a page change succeeds, the pager shows
    the new page number and the body shows the received rows, each at
    its position, or the "No results." row when none was received. *)
Theorem loaded_page_change_shows_rows net st page (response : App.Response)
    (rows : list App.AuctionData) sorting :
  page <> App.currentPage st ->
  net (App.requestUrl page) = inr response ->
  App.json_result response = inr rows ->
  textContent (pageLabel (App.props (App.step net (App.SetCurrentPage page) st).1))
  = "Page " +:+ pretty page +:+ " of 10"
  /\ (rows = [] ->
      renderBody (App.props (App.step net (App.SetCurrentPage page) st).1) sorting
      = [placeholderRow (App.props (App.step net (App.SetCurrentPage page) st).1)
           "No results."])
  /\ (rows <> [] ->
      length (renderBody (App.props (App.step net (App.SetCurrentPage page) st).1)
                sorting)
      = length rows)
  /\ forall (i : nat) (x : App.AuctionData),
       rows !! i = Some x ->
       renderBody (App.props (App.step net (App.SetCurrentPage page) st).1) sorting !! i
       = Some (renderRow (App.props (App.step net (App.SetCurrentPage page) st).1)
                 sorting
                 {| row_id := pretty i; row_index := i; row_original := x |}).
Proof.
  intros Hne Hn Hj.
  rewrite (step_run net st (App.SetCurrentPage page) page) by (right; now split).
  rewrite (fetchData_success _ _ _ _ _ Hn Hj). cbn [fst snd].
  split; [apply screen_label|]. split; [|split].
  - intros ->. reflexivity.
  - intros Hrows. rewrite renderBody_loaded; [|reflexivity|exact Hrows].
    now rewrite length_map, getCoreRowModel_length.
  - intros i x Hx. now apply renderBody_row.
Qed.

(** ** Requests in flight *)

Lemma fetchData_start_run net st page :
  Async.fetchData_start page net st
  = (App.Normal (),
     {| App.data := App.data st; App.currentPage := App.currentPage st;
        App.isLoading := true |},
     [App.SetIsLoading true; App.Fetch (App.requestUrl page)]).
Proof. reflexivity. Qed.

Lemma fetchData_resume_failure net st page (e : App.Error) :
  net (App.requestUrl page) = inl e
  \/ (exists response, net (App.requestUrl page) = inr response
                       /\ App.json_result response = inl e) ->
  Async.fetchData_resume page net st
  = (App.Normal (),
     {| App.data := App.data st; App.currentPage := App.currentPage st;
        App.isLoading := false |},
     [App.ConsoleError "Error fetching data:" e; App.SetIsLoading false]).
Proof.
  intros [Hnet|(response & Hnet & Hjson)];
    unfold Async.fetchData_resume, App.try_catch_finally, Async.settled, App.json,
      mbind, App.M_bind; simpl; rewrite Hnet; simpl; [reflexivity|].
  now rewrite Hjson.
Qed.

Lemma fetchData_resume_success net st page (response : App.Response)
    (rows : list App.AuctionData) :
  net (App.requestUrl page) = inr response ->
  App.json_result response = inr rows ->
  Async.fetchData_resume page net st
  = (App.Normal (),
     {| App.data := rows; App.currentPage := App.currentPage st;
        App.isLoading := false |},
     [App.SetData rows; App.SetIsLoading false]).
Proof.
  intros Hnet Hjson.
  unfold Async.fetchData_resume, App.try_catch_finally, Async.settled, App.json,
    mbind, App.M_bind; simpl.
  rewrite Hnet; simpl. now rewrite Hjson.
Qed.

Lemma effect_page_fires (ev : App.Event) st page :
  Async.effect_page ev st = Some page ->
  (ev = App.Mount /\ page = App.currentPage st)
  \/ (ev = App.SetCurrentPage page /\ page <> App.currentPage st).
Proof.
  destruct ev as [|page']; simpl.
  - intros [= <-]. now left.
  - destruct (Z.eqb_spec page' (App.currentPage st)); [discriminate|].
    intros [= <-]. now right.
Qed.

Lemma step_Do net (sys : Async.System) (ev : App.Event) page :
  Async.effect_page ev (Async.state sys) = Some page ->
  Async.step net (Async.Do ev) sys
  = ({| Async.state := {| App.data := App.data (Async.state sys);
                          App.currentPage := page; App.isLoading := true |};
        Async.inflight := Async.inflight sys ++ [page] |},
     [App.SetIsLoading true; App.Fetch (App.requestUrl page)]).
Proof. intros Hp. simpl. now rewrite Hp. Qed.

(** X11: a request whose response arrives before anything else happens
    leaves the screen, and the effects, exactly as the run of
    [fetchData] in one piece does; the requests in flight before are
    untouched. *)
Theorem immediate_response_is_one_run net (sys : Async.System) (ev : App.Event) page :
  Async.effect_page ev (Async.state sys) = Some page ->
  Async.steps net [Async.Do ev; Async.Settle (length (Async.inflight sys))] sys
  = ({| Async.state := (App.step net ev (Async.state sys)).1;
        Async.inflight := Async.inflight sys |},
     (App.step net ev (Async.state sys)).2).
Proof.
  intros Hp. cbn [Async.steps]. rewrite (step_Do _ _ _ _ Hp).
  rewrite (step_run net _ ev page (effect_page_fires _ _ _ Hp)).
  cbn [Async.step Async.inflight Async.state].
  rewrite list_lookup_middle by reflexivity.
  rewrite delete_middle, !app_nil_r.
  destruct (fetchData_cases net (Async.state sys) page)
    as [(e & He)|(response & rows & Hn & Hj)].
  - rewrite (fetchData_resume_failure _ _ _ _ He), (fetchData_failure _ _ _ _ He).
    reflexivity.
  - rewrite (fetchData_resume_success _ _ _ _ _ Hn Hj),
      (fetchData_success _ _ _ _ _ Hn Hj).
    reflexivity.
Qed.

Lemma step_Settle_success net (sys : Async.System) (i : nat) page
    (response : App.Response) (rows : list App.AuctionData) :
  Async.inflight sys !! i = Some page ->
  net (App.requestUrl page) = inr response ->
  App.json_result response = inr rows ->
  Async.step net (Async.Settle i) sys
  = ({| Async.state := {| App.data := rows;
                          App.currentPage := App.currentPage (Async.state sys);
                          App.isLoading := false |};
        Async.inflight := delete i (Async.inflight sys) |},
     [App.SetData rows; App.SetIsLoading false]).
Proof.
  intros Hi Hn Hj. simpl. rewrite Hi.
  now rewrite (fetchData_resume_success _ _ _ _ _ Hn Hj).
Qed.

(** X12: nothing ties a response to the page on display.  When page a
    and then page b are requested and the response for b arrives before
    the one for a, the screen ends on page b showing the rows of
    page a; had the responses arrived in the order of the requests, it
    would show the rows of page b. *)
Theorem late_response_overwrites_newer_page net (sys : Async.System) (a b : Z)
    (response_a response_b : App.Response) (rows_a rows_b : list App.AuctionData) :
  a <> App.currentPage (Async.state sys) -> b <> a ->
  net (App.requestUrl a) = inr response_a -> App.json_result response_a = inr rows_a ->
  net (App.requestUrl b) = inr response_b -> App.json_result response_b = inr rows_b ->
  (Async.steps net
     [Async.Do (App.SetCurrentPage a); Async.Do (App.SetCurrentPage b);
      Async.Settle (S (length (Async.inflight sys)));
      Async.Settle (length (Async.inflight sys))] sys).1
  = {| Async.state := {| App.data := rows_a; App.currentPage := b;
                         App.isLoading := false |};
       Async.inflight := Async.inflight sys |}
  /\ (Async.steps net
       [Async.Do (App.SetCurrentPage a); Async.Do (App.SetCurrentPage b);
        Async.Settle (length (Async.inflight sys));
        Async.Settle (length (Async.inflight sys))] sys).1
     = {| Async.state := {| App.data := rows_b; App.currentPage := b;
                            App.isLoading := false |};
          Async.inflight := Async.inflight sys |}.
Proof.
  intros Ha Hb Hna Hja Hnb Hjb.
  assert (Hpa : Async.effect_page (App.SetCurrentPage a) (Async.state sys) = Some a).
  { simpl. now destruct (Z.eqb_spec a (App.currentPage (Async.state sys))). }
  cbn [Async.steps]. rewrite (step_Do _ _ _ _ Hpa).
  set (sys1 := {| Async.state := _; Async.inflight := Async.inflight sys ++ [a] |}).
  assert (Hpb : Async.effect_page (App.SetCurrentPage b) (Async.state sys1) = Some b).
  { simpl. now destruct (Z.eqb_spec b a). }
  rewrite (step_Do _ _ _ _ Hpb). subst sys1. cbn [Async.state Async.inflight App.data].
  set (l := Async.inflight sys).
  split.
  - rewrite (step_Settle_success net _ (S (length l)) b response_b rows_b); [|..|exact Hnb|exact Hjb].
    2:{ cbn [Async.inflight]. rewrite <- app_assoc. simpl.
        rewrite lookup_app_r by lia.
        now replace (S (length l) - length l)%nat with 1%nat by lia. }
    cbn [Async.state Async.inflight App.currentPage].
    assert (Hdel : delete (S (length l)) ((l ++ [a]) ++ [b]) = l ++ [a]).
    { replace (S (length l)) with (length (l ++ [a])) by (rewrite length_app; simpl; lia).
      now rewrite delete_middle, app_nil_r. }
    rewrite Hdel.
    rewrite (step_Settle_success net _ (length l) a response_a rows_a); [|..|exact Hna|exact Hja].
    2:{ cbn [Async.inflight]. now rewrite list_lookup_middle. }
    cbn [Async.state Async.inflight App.currentPage fst].
    now rewrite delete_middle, app_nil_r.
  - rewrite (step_Settle_success net _ (length l) a response_a rows_a); [|..|exact Hna|exact Hja].
    2:{ cbn [Async.inflight]. rewrite <- app_assoc. simpl.
        now rewrite list_lookup_middle. }
    cbn [Async.state Async.inflight App.currentPage].
    assert (Hdel : delete (length l) ((l ++ [a]) ++ [b]) = l ++ [b]).
    { rewrite <- app_assoc. simpl. now rewrite delete_middle. }
    rewrite Hdel.
    rewrite (step_Settle_success net _ (length l) b response_b rows_b); [|..|exact Hnb|exact Hjb].
    2:{ cbn [Async.inflight]. now rewrite list_lookup_middle. }
    cbn [Async.state Async.inflight App.currentPage fst].
    now rewrite delete_middle, app_nil_r.
Qed.

Lemma step_Settle_state net (sys : Async.System) (i : nat) page :
  Async.inflight sys !! i = Some page ->
  App.isLoading (Async.state (Async.step net (Async.Settle i) sys).1) = false
  /\ App.currentPage (Async.state (Async.step net (Async.Settle i) sys).1)
     = App.currentPage (Async.state sys)
  /\ Async.inflight (Async.step net (Async.Settle i) sys).1
     = delete i (Async.inflight sys).
Proof.
  intros Hi. simpl. rewrite Hi.
  destruct (fetchData_cases net (Async.state sys) page)
    as [(e & He)|(response & rows & Hn & Hj)].
  - now rewrite (fetchData_resume_failure _ _ _ _ He).
  - now rewrite (fetchData_resume_success _ _ _ _ _ Hn Hj).
Qed.

(** X13: the arrival of any response, good or bad, clears the loading
    flag even when other requests are still in flight: the body stops
    showing the "Loading..." row while one request less is pending. *)
Theorem first_response_ends_loading net (sys : Async.System) (i : nat) page sorting :
  Async.inflight sys !! i = Some page ->
  App.isLoading (Async.state (Async.step net (Async.Settle i) sys).1) = false
  /\ S (length (Async.inflight (Async.step net (Async.Settle i) sys).1))
     = length (Async.inflight sys)
  /\ renderBody (App.props (Async.state (Async.step net (Async.Settle i) sys).1)) sorting
     <> [placeholderRow
          (App.props (Async.state (Async.step net (Async.Settle i) sys).1))
          "Loading..."].
Proof.
  intros Hi. destruct (step_Settle_state net sys i page Hi) as (Hl & _ & Hin).
  split; [exact Hl|]. split.
  - rewrite Hin, length_delete.
    + apply lookup_lt_Some in Hi. lia.
    + now exists page.
  - unfold renderBody. cbn [isLoading App.props]. rewrite Hl.
    destruct (0 <? length _)%nat.
    + destruct (getRowModel _) as [|r rows]; [discriminate|].
      intros Heq. simpl in Heq. discriminate Heq.
    + intros Heq. discriminate Heq.
Qed.

Lemma steps_without_response net (evs : list Async.Event) :
  Forall (fun ev => Async.is_settle ev = false) evs ->
  forall sys : Async.System,
    App.isLoading (Async.state sys) = true ->
    App.isLoading (Async.state (Async.steps net evs sys).1) = true
    /\ App.data (Async.state (Async.steps net evs sys).1) = App.data (Async.state sys)
    /\ exists later,
         Async.inflight (Async.steps net evs sys).1 = Async.inflight sys ++ later.
Proof.
  induction 1 as [|ev evs Hev _ IH]; intros sys Hl.
  - simpl. repeat split; [exact Hl|]. exists []. now rewrite app_nil_r.
  - destruct ev as [ev|i]; [|discriminate Hev]. cbn [Async.steps].
    destruct (Async.effect_page ev (Async.state sys)) as [page|] eqn:Hp.
    + rewrite (step_Do _ _ _ _ Hp).
      set (sys1 := {| Async.state := _; Async.inflight := _ |}).
      destruct (IH sys1 eq_refl) as (Hl2 & Hd2 & later & Hin2).
      destruct (Async.steps net evs sys1) as [sys2 log2]. simpl in *.
      repeat split; [exact Hl2|exact Hd2|].
      exists (page :: later). now rewrite Hin2, <- app_assoc.
    + assert (Hstep : Async.step net (Async.Do ev) sys = (sys, [])).
      { simpl. now rewrite Hp. }
      rewrite Hstep. destruct (IH sys Hl) as (Hl2 & Hd2 & later & Hin2).
      destruct (Async.steps net evs sys) as [sys2 log2]. simpl in *.
      repeat split; [exact Hl2|exact Hd2|]. now exists later.
Qed.

(** X14: from the moment a request leaves until a response arrives,
    whatever else is done to the screen, the loading flag stays set and
    the body is the single "Loading..." row, although the rows stored
    are still those from before; and no request is ever withdrawn. *)
Theorem pending_request_shows_loading net (sys : Async.System) (ev : App.Event) page
    (evs : list Async.Event) sorting :
  Async.effect_page ev (Async.state sys) = Some page ->
  Forall (fun ev => Async.is_settle ev = false) evs ->
  App.isLoading (Async.state (Async.steps net (Async.Do ev :: evs) sys).1) = true
  /\ App.data (Async.state (Async.steps net (Async.Do ev :: evs) sys).1)
     = App.data (Async.state sys)
  /\ renderBody (App.props (Async.state (Async.steps net (Async.Do ev :: evs) sys).1))
       sorting
     = [placeholderRow
          (App.props (Async.state (Async.steps net (Async.Do ev :: evs) sys).1))
          "Loading..."]
  /\ exists later,
       Async.inflight (Async.steps net (Async.Do ev :: evs) sys).1
       = Async.inflight sys ++ page :: later.
Proof.
  intros Hp Hevs. cbn [Async.steps]. rewrite (step_Do _ _ _ _ Hp).
  set (sys1 := {| Async.state := _; Async.inflight := _ |}).
  destruct (steps_without_response net evs Hevs sys1 eq_refl)
    as (Hl & Hd & later & Hin).
  destruct (Async.steps net evs sys1) as [sys2 log2]. simpl in *.
  split; [exact Hl|]. split; [exact Hd|]. split.
  - unfold renderBody. cbn [isLoading App.props]. now rewrite Hl.
  - exists later. now rewrite Hin, <- app_assoc.
Qed.

(** ** The handlers of the screen *)

Lemma quiet_subtree_row st sorting (P : VNode App.AuctionData -> Prop)
    (r : Row App.AuctionData) :
  (forall n, onClick_of n = None -> onChange_of n = None -> P n) ->
  Forall P (subtree (renderRow (App.props st) sorting r)).
Proof.
  intros Hquiet. simpl.
  repeat first [apply Forall_nil_2 | apply Forall_cons_2]; now apply Hquiet.
Qed.

Lemma quiet_subtree_body st sorting (P : VNode App.AuctionData -> Prop) :
  (forall n, onClick_of n = None -> onChange_of n = None -> P n) ->
  Forall (fun c => Forall P (subtree c)) (renderBody (App.props st) sorting).
Proof.
  intros Hquiet. unfold renderBody. destruct (isLoading (App.props st)).
  { repeat first [apply Forall_nil_2 | apply Forall_cons_2]; now apply Hquiet. }
  destruct (0 <? length (getRowModel (table (App.props st) sorting)))%nat.
  - apply Forall_fmap, Forall_forall. intros r _. now apply quiet_subtree_row.
  - repeat first [apply Forall_nil_2 | apply Forall_cons_2]; now apply Hquiet.
Qed.

Lemma quiet_subtree_header st sorting (P : VNode App.AuctionData -> Prop) :
  (forall n, onClick_of n = None -> onChange_of n = None -> P n) ->
  Forall P (subtree (renderHeader (App.props st) sorting)).
Proof.
  intros Hquiet. vm_compute subtree.
  repeat first [apply Forall_nil_2 | apply Forall_cons_2]; now apply Hquiet.
Qed.

(** X15: in the screen no element has a change handler, and the only
    elements with a click handler are the two controls of the pager,
    which ask for the page before and the page after the current one:
    nothing rendered by the screen can navigate, edit, delete, search
    or set the sorting state. *)
Theorem screen_handlers_only_change_page st sorting :
  Forall (fun n =>
            onChange_of n = None
            /\ (onClick_of n = None
                \/ onClick_of n = Some [OnPageChange (App.currentPage st - 1)]
                \/ onClick_of n = Some [OnPageChange (App.currentPage st + 1)]))
         (subtree (App.App st sorting)).
Proof.
  set (P := fun n : VNode App.AuctionData =>
              onChange_of n = None
              /\ (onClick_of n = None
                  \/ onClick_of n = Some [OnPageChange (App.currentPage st - 1)]
                  \/ onClick_of n = Some [OnPageChange (App.currentPage st + 1)])).
  assert (Hquiet : forall n, onClick_of n = None -> onChange_of n = None -> P n).
  { intros n Hc Hch. split; [exact Hch|now left]. }
  unfold App.App, DataTable.
  change (renderSearch (App.props st)) with (@nil (VNode App.AuctionData)).
  rewrite app_nil_l.
  apply Forall_subtree_Element; [now apply Hquiet|].
  apply Forall_cons_2; [|apply Forall_nil_2].
  apply Forall_subtree_Element; [now apply Hquiet|].
  apply Forall_cons_2; [|apply Forall_cons_2; [|apply Forall_nil_2]].
  - apply Forall_subtree_Element; [now apply Hquiet|].
    apply Forall_cons_2; [|apply Forall_nil_2].
    apply Forall_subtree_Element; [now apply Hquiet|].
    apply Forall_cons_2; [|apply Forall_cons_2; [|apply Forall_nil_2]].
    + now apply quiet_subtree_header.
    + apply Forall_subtree_Element; [now apply Hquiet|].
      now apply quiet_subtree_body.
  - simpl.
    repeat first [apply Forall_nil_2 | apply Forall_cons_2];
      try (now apply Hquiet).
    + split; [reflexivity|]. right. now left.
    + split; [reflexivity|]. right. now right.
Qed.

End ScreenMore.

(** * The further properties at concrete inputs *)

Lemma row_controls_act_on_own_record_witness :
  exists tr,
    renderBody (Samples.with_actions true true None) [] !! 0%nat = Some tr
    /\ length (children_of tr) = 9%nat
    /\ exists control,
         at_path [8; 0; 1; 1; 1; 1]%nat tr = Some control
         /\ click control = [OnDelete (Samples.auction 42)].
Proof.
  destruct (row_controls_act_on_own_record (Samples.with_actions true true None) []
              0 (Samples.auction 42) eq_refl eq_refl eq_refl)
    as (tr & Htr & Hlen & _ & _ & Hdelete).
  exists tr. split; [exact Htr|]. split; [exact Hlen|].
  exact (Hdelete eq_refl).
Defined.

Lemma header_row_texts_witness :
  exists heads,
    children_of (renderHeader (Samples.with_actions true false None) [])
    = [Element "TableRow" [("key", AStr "0")] heads]
    /\ map textContent heads = MoreSamples.header_texts ++ ["Actions"].
Proof.
  assert (Htexts : Forall2 (fun c s => header c = TemplateString s)
                     (columns (Samples.with_actions true false None))
                     MoreSamples.header_texts)
    by (repeat constructor).
  destruct (header_row_texts (Samples.with_actions true false None) []
              MoreSamples.header_texts Htexts) as (heads & Hrow & _ & Htext & _).
  exists heads. split; [exact Hrow|exact Htext].
Defined.

Lemma column_class_from_styles_witness :
  exists h,
    at_path [0; 0]%nat (renderHeader (App.props Samples.page_3_1_2) []) = Some h
    /\ get_attr "className" (attrs_of h) = Some (AStr "w-28").
Proof.
  destruct (column_class_from_styles (App.props Samples.page_3_1_2) [] 0
              (App.accessorColumn "dateString" "Date" App.dateString) eq_refl)
    as (cls & (h & Hpath & Hclass) & _ & Hentry).
  exists h. split; [exact Hpath|].
  now rewrite <- (Hentry "w-28" eq_refl).
Defined.

Lemma body_keys_distinct_witness :
  map (fun tr => get_attr "key" (attrs_of tr))
      (renderBody (App.props Samples.page_3_1_2) [])
  = [Some (AStr "0"); Some (AStr "1"); Some (AStr "2")].
Proof.
  assert (Hd : data (App.props Samples.page_3_1_2) <> []) by discriminate.
  destruct (body_keys_distinct (App.props Samples.page_3_1_2) [] eq_refl Hd)
    as (Hkeys & _).
  exact Hkeys.
Defined.



Lemma pager_stays_in_range_witness :
  (1 <= App.currentPage
          (Pager.presses Samples.offline
             [Pager.Previous; Pager.Next; Pager.Next; Pager.Previous; Pager.Previous]
             (App.initialState, [])).1.1 <= 10)%Z.
Proof.
  assert (Hrange : (1 <= App.currentPage App.initialState <= 10)%Z) by (simpl; lia).
  exact (proj1 (pager_stays_in_range Samples.offline
                  [Pager.Previous; Pager.Next; Pager.Next; Pager.Previous; Pager.Previous]
                  App.initialState [] Hrange)).
Defined.

Lemma failed_page_change_keeps_rows_witness :
  textContent
    (pageLabel (App.props (App.step Samples.offline (App.SetCurrentPage 4)
                             Samples.page_3_1_2).1))
  = "Page 4 of 10"
  /\ renderBody (App.props (App.step Samples.offline (App.SetCurrentPage 4)
                              Samples.page_3_1_2).1) []
     = renderBody (App.props Samples.page_3_1_2) [].
Proof.
  assert (Hne : 4%Z <> App.currentPage Samples.page_3_1_2) by discriminate.
  assert (He : Samples.offline (App.requestUrl 4) = inl (App.TypeError "Failed to fetch")
               \/ (exists response,
                      Samples.offline (App.requestUrl 4) = inr response
                      /\ App.json_result response = inl (App.TypeError "Failed to fetch")))
    by (left; reflexivity).
  destruct (failed_page_change_keeps_rows Samples.offline Samples.page_3_1_2 4
              (App.TypeError "Failed to fetch") [] Hne eq_refl He)
    as (Hlabel & Hbody & _).
  split; [exact Hlabel|exact Hbody].
Defined.

Lemma loaded_page_change_shows_rows_witness :
  textContent
    (pageLabel (App.props (App.step (Samples.serves Samples.two_rows)
                             (App.SetCurrentPage 4) Samples.page_3_1_2).1))
  = "Page 4 of 10"
  /\ length (renderBody (App.props (App.step (Samples.serves Samples.two_rows)
                                      (App.SetCurrentPage 4) Samples.page_3_1_2).1) [])
     = 2%nat.
Proof.
  assert (Hne : 4%Z <> App.currentPage Samples.page_3_1_2) by discriminate.
  assert (Hrows : Samples.two_rows <> []) by discriminate.
  destruct (loaded_page_change_shows_rows (Samples.serves Samples.two_rows)
              Samples.page_3_1_2 4 {| App.json_result := inr Samples.two_rows |}
              Samples.two_rows [] Hne eq_refl eq_refl)
    as (Hlabel & _ & Hlen & _).
  split; [exact Hlabel|exact (Hlen Hrows)].
Defined.

Lemma immediate_response_is_one_run_witness :
  Async.steps (Samples.serves Samples.two_rows) [Async.Do App.Mount; Async.Settle 0]
    MoreSamples.idle
  = ({| Async.state := {| App.data := Samples.two_rows; App.currentPage := 1;
                          App.isLoading := false |};
        Async.inflight := [] |},
     [App.SetIsLoading true; App.Fetch "https://spicesinfo.in/auction-all/0/10";
      App.SetData Samples.two_rows; App.SetIsLoading false]).
Proof.
  exact (immediate_response_is_one_run (Samples.serves Samples.two_rows)
           MoreSamples.idle App.Mount 1 eq_refl).
Defined.

Lemma late_response_overwrites_newer_page_witness :
  (Async.steps MoreSamples.by_page
     [Async.Do (App.SetCurrentPage 2); Async.Do (App.SetCurrentPage 3);
      Async.Settle 1; Async.Settle 0] MoreSamples.idle).1
  = {| Async.state := {| App.data := MoreSamples.page_2_rows; App.currentPage := 3;
                         App.isLoading := false |};
       Async.inflight := [] |}.
Proof.
  assert (Ha : 2%Z <> App.currentPage (Async.state MoreSamples.idle)) by discriminate.
  assert (Hb : 3%Z <> 2%Z) by discriminate.
  exact (proj1 (late_response_overwrites_newer_page MoreSamples.by_page MoreSamples.idle
                  2 3 {| App.json_result := inr MoreSamples.page_2_rows |}
                  {| App.json_result := inr MoreSamples.page_3_rows |}
                  MoreSamples.page_2_rows MoreSamples.page_3_rows
                  Ha Hb eq_refl eq_refl eq_refl eq_refl)).
Defined.

Lemma first_response_ends_loading_witness :
  App.isLoading
    (Async.state (Async.step Samples.offline (Async.Settle 0) MoreSamples.two_pending).1)
  = false
  /\ Async.inflight (Async.step Samples.offline (Async.Settle 0) MoreSamples.two_pending).1
     = [3%Z].
Proof.
  split.
  - exact (proj1 (first_response_ends_loading Samples.offline MoreSamples.two_pending
                    0 2 [] eq_refl)).
  - reflexivity.
Defined.

Lemma pending_request_shows_loading_witness :
  renderBody
    (App.props
       (Async.state
          (Async.steps Samples.offline
             [Async.Do App.Mount; Async.Do (App.SetCurrentPage 2)] MoreSamples.idle).1))
    []
  = [placeholderRow
       (App.props
          (Async.state
             (Async.steps Samples.offline
                [Async.Do App.Mount; Async.Do (App.SetCurrentPage 2)] MoreSamples.idle).1))
       "Loading..."].
Proof.
  assert (Hevs : Forall (fun ev => Async.is_settle ev = false)
                   [Async.Do (App.SetCurrentPage 2)])
    by (repeat constructor).
  destruct (pending_request_shows_loading Samples.offline MoreSamples.idle App.Mount 1
              [Async.Do (App.SetCurrentPage 2)] [] eq_refl Hevs)
    as (_ & _ & Hbody & _).
  exact Hbody.
Defined.

(** A supplied column called "actions" next to a callback: two rendered
    columns share an identifier. *)
Example supplied_actions_column_clashes :
  ~ NoDup (map id (tableColumns
       {| data := [Samples.auction 1];
          columns := [App.accessorColumn "actions" "Actions" App.type];
          pageCount := 1; currentPage := 1; pageSize := 10;
          onEdit := true; onDelete := false; editRoute := None;
          isLoading := false; searchValue := ""; onSearch := false;
          columnStyles := ∅ |})).
Proof.
  intros Hnd. simpl in Hnd. apply NoDup_cons in Hnd as [Hnot _].
  apply Hnot. left.
Qed.

Lemma edit_route_inert_without_callback_witness :
  children_of (actionsCell (Samples.with_actions false true (Some "/items/edit"))
                 {| row := Samples.row_of 0 42; cell_column_id := "actions" |})
  = [deleteDialog (Samples.row_of 0 42)].
Proof.
  exact (proj1 (edit_route_inert_without_callback
                  (Samples.with_actions false true (Some "/items/edit"))
                  {| row := Samples.row_of 0 42; cell_column_id := "actions" |}
                  eq_refl)).
Defined.
